(** * file-organiser: a shallow embedding of [file-organiser.py]

    The script keeps one watched directory tidy: at start-up it asks a
    language model to cluster the loose files ([batch_classify]) and
    applies the answer ([apply_moves]); afterwards every newly created
    file is offered to the model once more ([handle_new_file]).

    The embedding follows the script function by function.  Python
    values are modelled as follows.

    - [str]: a Python string is a sequence of Unicode code points; it is
      a [list N] here, so that [str.strip], [str.replace] and the JSON
      escapes act on code points exactly as in Python.
    - [json]: the values [json.loads] can return.
    - a [dict] is an association list in insertion order without
      repeated keys.
    - [pathlib.Path] is the list of the components of an absolute POSIX
      path; the file system is a finite table from canonical paths to
      entry kinds.
    - side effects (provider calls, directory creation, moves, raised
      exceptions) live in a state-and-exception monad [M] over a
      [World]. *)

From Stdlib Require Import String Ascii.
From Stdlib Require Import List NArith Lia Bool Arith.
Import ListNotations.

Set Implicit Arguments.
Set Warnings "-register-all".

(** ** Python strings *)

Definition char := N.
Definition str := list char.

(** [py "abc"] is the Python literal ['abc'] (ASCII literals only). *)
Definition py (lit : string) : str :=
  map N_of_ascii (list_ascii_of_string lit).

Definition ch (a : ascii) : char := N_of_ascii a.

Fixpoint str_eqb (a b : str) : bool :=
  match a, b with
  | [], [] => true
  | x :: a', y :: b' => N.eqb x y && str_eqb a' b'
  | _, _ => false
  end.

(** [s.startswith(prefix)] *)
Fixpoint startswith (s prefix : str) {struct prefix} : bool :=
  match prefix with
  | [] => true
  | p :: prefix' =>
      match s with
      | [] => false
      | c :: s' => N.eqb c p && startswith s' prefix'
      end
  end.

(** [name in s] for two strings: substring test. *)
Fixpoint str_contains (s sub : str) : bool :=
  startswith s sub ||
  match s with
  | [] => false
  | _ :: s' => str_contains s' sub
  end.

(** [s.replace(old, new)] for a non-empty [old]: occurrences are found
    from left to right and do not overlap.  [skip] counts the characters
    of the current occurrence that are still to be dropped. *)
Fixpoint replace_from (old new : str) (skip : nat) (s : str) : str :=
  match s with
  | [] => []
  | c :: s' =>
      match skip with
      | S k => replace_from old new k s'
      | O =>
          if startswith s old
          then new ++ replace_from old new (length old - 1) s'
          else c :: replace_from old new 0 s'
      end
  end.

(** With an empty [old] Python inserts [new] before every character and
    at the end. *)
Definition replace (old new s : str) : str :=
  match old with
  | [] => new ++ flat_map (fun c => c :: new) s
  | _ => replace_from old new 0 s
  end.

(** [str.isspace] on one code point: the characters [str.strip()]
    removes (CPython's [_PyUnicode_IsWhitespace]). *)
Definition isspace (c : char) : bool :=
  ((9 <=? c) && (c <=? 13) || (28 <=? c) && (c <=? 32) ||
   (c =? 133) || (c =? 160) || (c =? 5760) ||
   (8192 <=? c) && (c <=? 8202) || (c =? 8232) || (c =? 8233) ||
   (c =? 8239) || (c =? 8287) || (c =? 12288))%N.

Fixpoint lstrip (s : str) : str :=
  match s with
  | [] => []
  | c :: s' => if isspace c then lstrip s' else s
  end.

Definition rstrip (s : str) : str := rev (lstrip (rev s)).

(** [s.strip()] *)
Definition strip (s : str) : str := rstrip (lstrip s).

(** ** Configuration *)

Definition IGNORED_FILENAMES : list str :=
  [py ".DS_Store"; py ".gitignore"; py "Thumbs.db"].

Definition MAX_FOLDERS : nat := 5.

(** ** Paths

    A path is the list of its components below the root [/].
    [Path.name] is the last component and [Path.parent] drops it; both
    are lexical, as in [pathlib]. *)

Definition path := list str.

Definition name (p : path) : str := last p [].
Definition parent (p : path) : path := removelast p.

Fixpoint path_eqb (a b : path) : bool :=
  match a, b with
  | [], [] => true
  | x :: a', y :: b' => str_eqb x y && path_eqb a' b'
  | _, _ => false
  end.

(** [s.split("/")] *)
Fixpoint split_slash (cur : str) (s : str) : list str :=
  match s with
  | [] => [rev cur]
  | c :: s' =>
      if N.eqb c (ch "/") then rev cur :: split_slash [] s'
      else split_slash (c :: cur) s'
  end.

(** The components [pathlib] keeps when it parses a string: empty
    components and [.] are dropped, [..] stays. *)
Definition parse_parts (s : str) : list str :=
  filter (fun c => negb (str_eqb c []) && negb (str_eqb c (py ".")))
         (split_slash [] s).

(** [p / s]: a segment that starts with a slash replaces [p]. *)
Definition joinpath (p : path) (s : str) : path :=
  if startswith s (py "/") then parse_parts s else p ++ parse_parts s.

(** ** The pure helpers of the script *)

Definition mem_str (x : str) (l : list str) : bool := existsb (str_eqb x) l.

(** [should_ignore]: the name starts with a dot or is in the ignore set. *)
Definition should_ignore (file_path : path) : bool :=
  startswith (name file_path) (py ".")
  || mem_str (name file_path) IGNORED_FILENAMES.

(** [sanitize_folder]: [name.replace("/", "_").strip()] *)
Definition sanitize_folder (nm : str) : str :=
  strip (replace (py "/") (py "_") nm).

(** ** JSON values and [json.loads]

    [json] lists the Python values the decoder can build.  A number is
    kept as the text it was read from: the script never computes with
    one, it only compares strings with it (always unequal). *)

Inductive json : Type :=
| JNull
| JBool (b : bool)
| JNum (lexeme : str)
| JStr (s : str)
| JArr (items : list json)
| JObj (members : list (str * json)).

(** A Python [dict] with string keys: insertion order, no repeated key.
    [dict_set d k v] is [d[k] = v]. *)
Fixpoint dict_set {V : Type} (d : list (str * V)) (k : str) (v : V)
  : list (str * V) :=
  match d with
  | [] => [(k, v)]
  | (k', v') :: d' =>
      if str_eqb k' k then (k', v) :: d' else (k', v') :: dict_set d' k v
  end.

Fixpoint dict_get {V : Type} (d : list (str * V)) (k : str) : option V :=
  match d with
  | [] => None
  | (k', v') :: d' => if str_eqb k' k then Some v' else dict_get d' k
  end.

Definition keys {V : Type} (d : list (str * V)) : list str := map fst d.

Module Json.

(** What a scanner returns: the value and the unread input, a syntax
    error, or recursion budget exhausted ([PFuel] never reaches
    [loads], see [JsonFacts.scan_once_fuel]). *)
Inductive presult (A : Type) : Type :=
| POk (a : A) (rest : str)
| PErr
| PFuel.
Arguments POk {A} a rest.
Arguments PErr {A}.
Arguments PFuel {A}.

Definition quote : char := 34%N.
Definition backslash : char := 92%N.

(** The decoder's [WHITESPACE]: space, tab, line feed, carriage return. *)
Definition is_ws (c : char) : bool :=
  ((c =? 32) || (c =? 9) || (c =? 10) || (c =? 13))%N.

Fixpoint skip_ws (s : str) : str :=
  match s with
  | [] => []
  | c :: s' => if is_ws c then skip_ws s' else s
  end.

Definition is_digit (c : char) : bool := ((48 <=? c) && (c <=? 57))%N.

Fixpoint span_digits (s : str) : str * str :=
  match s with
  | [] => ([], [])
  | c :: s' =>
      if is_digit c
      then let (ds, r) := span_digits s' in (c :: ds, r)
      else ([], s)
  end.

Definition hex_val (c : char) : option N :=
  (if (48 <=? c) && (c <=? 57) then Some (c - 48)
   else if (97 <=? c) && (c <=? 102) then Some (c - 87)
   else if (65 <=? c) && (c <=? 70) then Some (c - 55)
   else None)%N.

Definition hex4 (a b c d : char) : option N :=
  match hex_val a, hex_val b, hex_val c, hex_val d with
  | Some x, Some y, Some z, Some w => Some (((x * 16 + y) * 16 + z) * 16 + w)%N
  | _, _, _, _ => None
  end.

Definition is_high_surrogate (c : N) : bool := ((55296 <=? c) && (c <=? 56319))%N.
Definition is_low_surrogate (c : N) : bool := ((56320 <=? c) && (c <=? 57343))%N.
Definition join_surrogates (hi lo : N) : N :=
  (65536 + (hi - 55296) * 1024 + (lo - 56320))%N.

(** The simple escapes: the character after the backslash (quote,
    backslash, slash, b, f, n, r, t) and the character it stands for. *)
Definition simple_escape (c : char) : option char :=
  (if c =? 34 then Some 34          
   else if c =? 92 then Some 92     
   else if c =? 47 then Some 47     
   else if c =? 98 then Some 8      
   else if c =? 102 then Some 12    
   else if c =? 110 then Some 10    
   else if c =? 114 then Some 13    
   else if c =? 116 then Some 9     
   else None)%N.

(** [scanstring] in strict mode, called just after the opening quote:
    the decoded string (accumulated in reverse in [acc]) and the input
    after the closing quote.  A high surrogate escape directly followed
    by a low surrogate escape is one character. *)
Fixpoint scanstring (s : str) (acc : str) : option (str * str) :=
  match s with
  | [] => None
  | c :: s1 =>
      if N.eqb c quote then Some (rev acc, s1)
      else if N.eqb c backslash then
        match s1 with
        | [] => None
        | e :: s2 =>
            if N.eqb e 117 then
              match s2 with
              | h1 :: h2 :: h3 :: h4 :: s3 =>
                  match hex4 h1 h2 h3 h4 with
                  | None => None
                  | Some u =>
                      match s3 with
                      | b :: u' :: g1 :: g2 :: g3 :: g4 :: (_ :: _) as s4 =>
                          if is_high_surrogate u && N.eqb b backslash && N.eqb u' 117
                          then
                            match hex4 g1 g2 g3 g4 with
                            | None => None
                            | Some u2 =>
                                if is_low_surrogate u2
                                then scanstring s4 (join_surrogates u u2 :: acc)
                                else scanstring s3 (u :: acc)
                            end
                          else scanstring s3 (u :: acc)
                      | _ => scanstring s3 (u :: acc)
                      end
                  end
              | _ => None
              end
            else
              match simple_escape e with
              | Some x => scanstring s2 (x :: acc)
              | None => None
              end
        end
      else if (c <=? 31)%N then None
      else scanstring s1 (c :: acc)
  end.

(** [NUMBER_RE]: an optional minus sign; then a zero, or a digit from
    1 to 9 and any digits; then optionally a dot and one or more
    digits; then optionally e or E, an optional sign and one or more
    digits.  The matched text and the rest of the input. *)
Definition match_int (s : str) : option (str * str) :=
  match s with
  | [] => None
  | c :: r =>
      if N.eqb c 48 then Some ([c], r)
      else if is_digit c then let (ds, r') := span_digits r in Some (c :: ds, r')
      else None
  end.

Definition match_frac (s : str) : str * str :=
  match s with
  | dot :: d :: r =>
      if N.eqb dot 46 && is_digit d
      then let (ds, r') := span_digits r in (dot :: d :: ds, r')
      else ([], s)
  | _ => ([], s)
  end.

Definition match_exp (s : str) : str * str :=
  match s with
  | e :: r =>
      if N.eqb e 101 || N.eqb e 69 then
        let (sign, r1) :=
          match r with
          | sg :: r' => if N.eqb sg 45 || N.eqb sg 43 then ([sg], r') else ([], r)
          | [] => ([], r)
          end in
        match span_digits r1 with
        | ([], _) => ([], s)
        | (ds, r2) => (e :: sign ++ ds, r2)
        end
      else ([], s)
  | [] => ([], s)
  end.

Definition match_number (s : str) : option (str * str) :=
  let (sign, s1) :=
    match s with
    | c :: r => if N.eqb c 45 then ([c], r) else ([], s)
    | [] => ([], s)
    end in
  match match_int s1 with
  | None => None
  | Some (i, r1) =>
      let (f, r2) := match_frac r1 in
      let (e, r3) := match_exp r2 in
      Some (sign ++ i ++ f ++ e, r3)
  end.

(** [s] without the prefix [p], when it starts with it. *)
Fixpoint after (p s : str) {struct p} : option str :=
  match p with
  | [] => Some s
  | x :: p' =>
      match s with
      | [] => None
      | c :: s' => if N.eqb c x then after p' s' else None
      end
  end.

Definition literal (lit : string) (v : json) (s : str) : presult json :=
  match after (py lit) s with
  | Some r => POk v r
  | None => PErr
  end.

Definition number (s : str) : presult json :=
  match match_number s with
  | Some (lx, r) => POk (JNum lx) r
  | None => PErr
  end.

(** [scan_once], [JSONArray] and [JSONObject] of the decoder.  The
    callers skip white space before a value; [parse_elements] and
    [parse_members] are the two loops, entered after the opening
    bracket when the container is not empty. *)
Fixpoint scan_once (fuel : nat) (s : str) {struct fuel} : presult json :=
  match fuel with
  | O => PFuel
  | S fuel' =>
      match s with
      | [] => PErr
      | c :: r =>
          if N.eqb c quote then
            match scanstring r [] with
            | Some (v, r') => POk (JStr v) r'
            | None => PErr
            end
          else if N.eqb c 123 then                       (* { *)
            match skip_ws r with
            | c' :: r' =>
                if N.eqb c' 125 then POk (JObj []) r'
                else parse_members fuel' [] (c' :: r')
            | [] => PErr
            end
          else if N.eqb c 91 then                        (* [ *)
            match skip_ws r with
            | c' :: r' =>
                if N.eqb c' 93 then POk (JArr []) r'
                else parse_elements fuel' [] (c' :: r')
            | [] => PErr
            end
          else if N.eqb c 110 then literal "null" JNull s
          else if N.eqb c 116 then literal "true" (JBool true) s
          else if N.eqb c 102 then literal "false" (JBool false) s
          else if N.eqb c 78 then literal "NaN" (JNum (py "NaN")) s
          else if N.eqb c 73 then literal "Infinity" (JNum (py "Infinity")) s
          else if N.eqb c 45 && startswith s (py "-Infinity")
               then literal "-Infinity" (JNum (py "-Infinity")) s
          else number s
      end
  end

with parse_elements (fuel : nat) (acc : list json) (s : str) {struct fuel}
  : presult json :=
  match fuel with
  | O => PFuel
  | S fuel' =>
      match scan_once fuel' s with
      | POk v r =>
          match skip_ws r with
          | c :: r' =>
              if N.eqb c 93 then POk (JArr (acc ++ [v])) r'
              else if N.eqb c 44 then parse_elements fuel' (acc ++ [v]) (skip_ws r')
              else PErr
          | [] => PErr
          end
      | PErr => PErr
      | PFuel => PFuel
      end
  end

with parse_members (fuel : nat) (acc : list (str * json)) (s : str) {struct fuel}
  : presult json :=
  match fuel with
  | O => PFuel
  | S fuel' =>
      match s with
      | q :: r0 =>
          if N.eqb q quote then
            match scanstring r0 [] with
            | None => PErr
            | Some (k, r1) =>
                match skip_ws r1 with
                | colon :: r2 =>
                    if N.eqb colon 58 then
                      match scan_once fuel' (skip_ws r2) with
                      | POk v r3 =>
                          match skip_ws r3 with
                          | c :: r4 =>
                              if N.eqb c 125 then POk (JObj (dict_set acc k v)) r4
                              else if N.eqb c 44
                                   then parse_members fuel' (dict_set acc k v) (skip_ws r4)
                              else PErr
                          | [] => PErr
                          end
                      | PErr => PErr
                      | PFuel => PFuel
                      end
                    else PErr
                | [] => PErr
                end
            end
          else PErr
      | [] => PErr
      end
  end.

(** [json.loads(s)]: one value between optional white space; [None]
    stands for a raised [JSONDecodeError].  The recursion and
    integer-size limits of the interpreter are not modelled. *)
Definition loads (s : str) : option json :=
  let s0 := skip_ws s in
  match scan_once (2 * length s0 + 1) s0 with
  | POk v r => match skip_ws r with [] => Some v | _ => None end
  | _ => None
  end.

End Json.

(** ** The file system

    A finite table from canonical paths (no [..] component) to the kind
    of the entry; the root [[]] is always a directory.  Symbolic links,
    permissions and several volumes are not modelled, and neither are
    the limits an operating system puts on names (their length, the
    characters it refuses): every name is one the system takes.  The
    order of the table is the order in which a directory is listed. *)

Inductive kind : Type := File | Dir.

Definition FS := list (path * kind).

Fixpoint lookup (fs : FS) (p : path) : option kind :=
  match fs with
  | [] => None
  | (q, k) :: fs' => if path_eqb q p then Some k else lookup fs' p
  end.

Definition kind_of (fs : FS) (p : path) : option kind :=
  match p with
  | [] => Some Dir
  | _ => lookup fs p
  end.

(** One step of path resolution: from the directory [cur], follow the
    component [c]. *)
Definition walk (fs : FS) (cur : option path) (c : str) : option path :=
  match cur with
  | None => None
  | Some d =>
      match kind_of fs d with
      | Some Dir => Some (if str_eqb c (py "..") then parent d else d ++ [c])
      | _ => None
      end
  end.

(** The canonical location a path designates, when every component
    before the last leads to a directory. *)
Definition canon (fs : FS) (p : path) : option path :=
  fold_left (walk fs) p (Some []).

(** [os.stat]: the kind of the entry at [p], if there is one. *)
Definition stat (fs : FS) (p : path) : option kind :=
  match canon fs p with
  | Some q => kind_of fs q
  | None => None
  end.

Definition kind_is (k : kind) (o : option kind) : bool :=
  match o, k with
  | Some File, File | Some Dir, Dir => true
  | _, _ => false
  end.

(** [Path.is_file()], [Path.is_dir()] and [Path.exists()] for paths the
    operating system takes: a missing entry, or a plain file on the
    way, gives [False].  For a path the system refuses (a component
    that is too long, say) the interpreter can let the [OSError] of
    [os.stat] through instead; that case lies outside the table. *)
Definition is_file (fs : FS) (p : path) : bool := kind_is File (stat fs p).
Definition is_dir (fs : FS) (p : path) : bool := kind_is Dir (stat fs p).
Definition exists_ (fs : FS) (p : path) : bool :=
  match stat fs p with Some _ => true | None => false end.

(** The names of the entries directly inside the directory [q]. *)
Definition children (fs : FS) (q : path) : list str :=
  flat_map (fun e : path * kind =>
              match fst e with
              | [] => []
              | p => if path_eqb (parent p) q then [name p] else []
              end) fs.

Definition fs_remove (fs : FS) (p : path) : FS :=
  filter (fun e : path * kind => negb (path_eqb (fst e) p)) fs.

Fixpoint fs_set (fs : FS) (p : path) (k : kind) : FS :=
  match fs with
  | [] => [(p, k)]
  | (q, k') :: fs' =>
      if path_eqb q p then (q, k) :: fs' else (q, k') :: fs_set fs' p k
  end.

(** [is_prefix a b]: the path [b] is [a] or lies below it. *)
Fixpoint is_prefix (a b : path) : bool :=
  match a with
  | [] => true
  | x :: a' =>
      match b with
      | [] => false
      | y :: b' => str_eqb x y && is_prefix a' b'
      end
  end.

(** Every entry at or below [s] is carried over to the same place at or
    below [d]. *)
Definition fs_move_tree (fs : FS) (s d : path) : FS :=
  map (fun e : path * kind =>
         if is_prefix s (fst e) then (d ++ skipn (length s) (fst e), snd e) else e)
      fs.

(** ** Effects *)

Inductive exn : Type :=
| AttributeError
| TypeError
| OSError          (* with its subclasses: FileNotFoundError, FileExistsError, ... *)
| ShutilError.     (* shutil.Error *)

Inductive result (A : Type) : Type :=
| Ret (a : A)
| Raise (e : exn).
Arguments Ret {A} a.
Arguments Raise {A} e.

(** The two prompts, reduced to the values the script interpolates. *)
Inductive request : Type :=
| BatchRequest (file_list : list str) (max_folders : nat)
| LiveRequest (existing_folders : list str) (file_name : str).

(** What the script does to its collaborators, in order. *)
Inductive event : Type :=
| Asked (r : request)                    (* client.models.generate_content *)
| Mkdir (target : path)                  (* target.mkdir(exist_ok=True) *)
| Moved (f : path) (folder : str)        (* shutil.move returned; the status line is printed *)
| MoveFailed (f : path) (folder : str).  (* shutil.move raised in [apply_moves]; reported *)

Record World : Type := mkWorld { fs : FS; trace : list event }.

Definition M (A : Type) : Type := World -> result A * World.

Definition ret {A : Type} (a : A) : M A := fun w => (Ret a, w).

Definition bind {A B : Type} (m : M A) (k : A -> M B) : M B :=
  fun w =>
    match m w with
    | (Ret a, w') => k a w'
    | (Raise e, w') => (Raise e, w')
    end.

Definition raise {A : Type} (e : exn) : M A := fun w => (Raise e, w).

(** [try: body  except Exception: handler] *)
Definition try_except {A : Type} (body : M A) (handler : exn -> M A) : M A :=
  fun w =>
    match body w with
    | (Ret a, w') => (Ret a, w')
    | (Raise e, w') => handler e w'
    end.

Definition emit (e : event) : M unit :=
  fun w => (Ret tt, mkWorld (fs w) (trace w ++ [e])).

Definition get_fs : M FS := fun w => (Ret (fs w), w).

Definition put_fs (f : FS) : M unit := fun w => (Ret tt, mkWorld f (trace w)).

Definition lift {A : Type} (r : result A) : M A := fun w => (r, w).

Declare Scope monad_scope.
Delimit Scope monad_scope with monad.
Notation "x <- m ;; k" := (bind m (fun x => k))
  (at level 61, m at next level, right associativity) : monad_scope.
Notation "m ;; k" := (bind m (fun _ => k))
  (at level 61, right associativity) : monad_scope.
Open Scope monad_scope.

(** [Path.iterdir()]: the children as paths below [d], in listing
    order. *)
Definition iterdir (d : path) : M (list path) :=
  f <- get_fs ;;
  match canon f d with
  | Some q =>
      match kind_of f q with
      | Some Dir => ret (map (fun n => d ++ [n]) (children f q))
      | _ => raise OSError
      end
  | None => raise OSError
  end.

(** [Path.mkdir(exist_ok=True)]: the parent must exist; an existing
    directory is accepted, an existing file is not. *)
Definition mkdir (target : path) : M unit :=
  emit (Mkdir target) ;;
  f <- get_fs ;;
  match canon f target with
  | None => raise OSError
  | Some q =>
      match kind_of f q with
      | Some Dir => ret tt
      | Some File => raise OSError
      | None => put_fs (fs_set f q Dir)
      end
  end.

(** [os.rename(src, dst)] on one volume. *)
Definition os_rename (src dst : path) : M unit :=
  f <- get_fs ;;
  match canon f src, canon f dst with
  | Some s, Some d =>
      match s, kind_of f s with
      | [], _ | _, None => raise OSError
      | _, Some ks =>
          if path_eqb s d then ret tt
          else
            match ks, kind_of f d with
            | File, Some Dir => raise OSError
            | File, _ => put_fs (fs_set (fs_remove f s) d File)
            | Dir, Some File => raise OSError
            | Dir, Some Dir =>
                match children f d with
                | [] => if is_prefix s d then raise OSError
                        else put_fs (fs_move_tree (fs_remove f d) s d)
                | _ => raise OSError
                end
            | Dir, None =>
                if is_prefix s d then raise OSError
                else put_fs (fs_move_tree f s d)
            end
      end
  | _, _ => raise OSError
  end.

Definition samefile (f : FS) (a b : path) : bool :=
  match canon f a, canon f b with
  | Some x, Some y =>
      path_eqb x y && match kind_of f x with Some _ => true | None => false end
  | _, _ => false
  end.

(** [shutil.move(src, dst)].  When [os.rename] raises, the library
    falls back to copying; on one volume the copy of a plain file fails
    for the reason the rename failed, and the copy of a directory can
    only succeed when the parent of the destination is missing, which
    neither call site allows (the target has just been created or
    checked).  So the failure of the rename is the failure of the
    move. *)
Definition shutil_move (src dst : path) : M unit :=
  f <- get_fs ;;
  if is_dir f dst then
    if samefile f src dst then os_rename src dst
    else
      let real_dst := dst ++ [name src] in
      if exists_ f real_dst then raise ShutilError
      else os_rename src real_dst
  else os_rename src dst.

(** ** The script *)

(** [folder_map.setdefault(clean_folder, []).append(f)] *)
Fixpoint setdefault_append (folder_map : list (str * list path))
         (clean_folder : str) (f : path) : list (str * list path) :=
  match folder_map with
  | [] => [(clean_folder, [f])]
  | (k, members) :: rest =>
      if str_eqb k clean_folder then (k, members ++ [f]) :: rest
      else (k, members) :: setdefault_append rest clean_folder f
  end.

Definition json_is_str (nm : str) (v : json) : bool :=
  match v with
  | JStr s => str_eqb s nm
  | _ => false
  end.

(** [nm in filenames] for a decoded value: membership in a list,
    substring of a string, key of a dict; [TypeError] for the rest. *)
Definition py_in (nm : str) (filenames : json) : result bool :=
  match filenames with
  | JArr items => Ret (existsb (json_is_str nm) items)
  | JStr s => Ret (str_contains s nm)
  | JObj members => Ret (mem_str nm (keys members))
  | JNull | JBool _ | JNum _ => Raise TypeError
  end.

(** Lines 100-101 and 190-191: the fence markers are removed when the
    answer starts with one. *)
Definition unfence (raw : str) : str :=
  if startswith raw (py "```")
  then strip (replace (py "```") [] (replace (py "```json") [] raw))
  else raw.

(** Lines 114-116: the inner loop over the candidate files. *)
Fixpoint assign_files (clean_folder : str) (filenames : json)
         (files : list path) (folder_map : list (str * list path))
  : result (list (str * list path)) :=
  match files with
  | [] => Ret folder_map
  | f :: rest =>
      match py_in (name f) filenames with
      | Ret true =>
          assign_files clean_folder filenames rest
                       (setdefault_append folder_map clean_folder f)
      | Ret false => assign_files clean_folder filenames rest folder_map
      | Raise e => Raise e
      end
  end.

(** Lines 112-116: the loop over [data.items()]. *)
Fixpoint cluster (items : list (str * json)) (files : list path)
         (folder_map : list (str * list path))
  : result (list (str * list path)) :=
  match items with
  | [] => Ret folder_map
  | (folder, filenames) :: rest =>
      match assign_files (sanitize_folder folder) filenames files folder_map with
      | Ret m => cluster rest files m
      | Raise e => Raise e
      end
  end.

(** Lines 103-122: from the decoded answer to the folder map;
    [data.items()] raises [AttributeError] unless [data] is a dict. *)
Definition materialize (data : json) (files : list path)
  : result (list (str * list path)) :=
  match data with
  | JObj items => cluster items files []
  | _ => Raise AttributeError
  end.

(** Lines 193-197: [sanitize_folder(data.get("folder", ""))] inside the
    [try]; every exception gives [None]. *)
Definition folder_choice (parsed : option json) : option str :=
  match parsed with
  | Some (JObj members) =>
      match dict_get members (py "folder") with
      | None => Some (sanitize_folder [])
      | Some (JStr s) => Some (sanitize_folder s)
      | Some _ => None
      end
  | _ => None
  end.

Section Organiser.

(** [Path.home()] and the classification provider
    ([client.models.generate_content(...).text]). *)
Variable home : path.
Variable generate_content : request -> str.

Definition BASE_FOLDER : path :=
  joinpath (joinpath home (py "Projects")) (py "Pybox").

Definition ask (r : request) : M str :=
  emit (Asked r) ;; ret (generate_content r).

(** [batch_classify] *)
Definition batch_classify (files : list path) : M (list (str * list path)) :=
  let file_list := map name files in
  response <- ask (BatchRequest file_list MAX_FOLDERS) ;;
  let raw := unfence (strip response) in
  match Json.loads raw with
  | None => ret []
  | Some data => lift (materialize data files)
  end.

(** Lines 131-136: the moves into one folder, each in its own [try]. *)
Fixpoint move_files (folder : str) (target : path) (files : list path) : M unit :=
  match files with
  | [] => ret tt
  | f :: rest =>
      try_except
        (shutil_move f (joinpath target (name f)) ;; emit (Moved f folder))
        (fun _ => emit (MoveFailed f folder)) ;;
      move_files folder target rest
  end.

(** [apply_moves] *)
Fixpoint apply_moves (folder_map : list (str * list path)) : M unit :=
  match folder_map with
  | [] => ret tt
  | (folder, files) :: rest =>
      let target := joinpath BASE_FOLDER folder in
      mkdir target ;;
      move_files folder target files ;;
      apply_moves rest
  end.

(** Lines 143-146: the eligible files directly in the watched root. *)
Definition files_to_process : M (list path) :=
  entries <- iterdir BASE_FOLDER ;;
  f <- get_fs ;;
  ret (filter (fun e => is_file f e && negb (should_ignore e)) entries).

(** Lines 143-152: the initial batch scan. *)
Definition initial_scan : M unit :=
  files <- files_to_process ;;
  match files with
  | [] => ret tt
  | _ =>
      folder_map <- batch_classify files ;;
      apply_moves folder_map
  end.

(** [classify_single_file] *)
Definition classify_single_file (file_path : path) : M (option str) :=
  entries <- iterdir BASE_FOLDER ;;
  f <- get_fs ;;
  let existing_folders := map name (filter (is_dir f) entries) in
  response <- ask (LiveRequest existing_folders (name file_path)) ;;
  let raw := unfence (strip response) in
  ret (folder_choice (Json.loads raw)).

(** [handle_new_file] *)
Definition handle_new_file (file_path : path) : M unit :=
  f <- get_fs ;;
  if negb (is_file f file_path) then ret tt
  else if negb (path_eqb (parent file_path) BASE_FOLDER) then ret tt
  else if should_ignore file_path then ret tt
  else
    folder <- classify_single_file file_path ;;
    match folder with
    | None | Some [] => ret tt
    | Some folder =>
        let target := joinpath BASE_FOLDER folder in
        f' <- get_fs ;;
        if negb (exists_ f' target) then ret tt
        else
          try_except
            (shutil_move file_path (joinpath target (name file_path)) ;;
             emit (Moved file_path folder))
            (fun _ => ret tt)
    end.

(** [OrganizerHandler.on_created]; the half-second pause has no
    counterpart here. *)
Definition on_created (is_directory : bool) (src_path : path) : M unit :=
  if is_directory then ret tt else handle_new_file src_path.

End Organiser.

(** ** Vocabulary of the statements *)

(** What [replace] does to one character when it swaps one character
    for another. *)
Definition subst_char (x y c : char) : char := if N.eqb c x then y else c.

Definition str_eq_dec : forall a b : str, {a = b} + {a <> b} :=
  list_eq_dec N.eq_dec.

(** The number of distinct strings in a list. *)
Definition distinct (l : list str) : nat := length (nodup str_eq_dec l).

(** The decoded answer of the provider, as both modes compute it. *)
Definition raw_result (response : str) : option json :=
  Json.loads (unfence (strip response)).

(** What holds of every entry of the folder map while it is built from
    the raw [items]: members are candidate files, no member list is
    empty, and the key is the sanitised name of a raw folder under
    which a candidate is listed. *)
Definition entry_ok (files : list path) (items : list (str * json))
           (e : str * list path) : Prop :=
  snd e <> [] /\
  (forall f, In f (snd e) -> In f files) /\
  (exists raw filenames f,
      In (raw, filenames) items /\ sanitize_folder raw = fst e /\
      In f files /\ py_in (name f) filenames = Ret true).

Definition map_ok (files : list path) (items : list (str * json))
           (m : list (str * list path)) : Prop :=
  NoDup (keys m) /\ Forall (entry_ok files items) m.

(** The status line a file of the plan gets in [apply_moves]. *)
Definition outcome_of (folder : str) (f : path) (e : event) : Prop :=
  e = Moved f folder \/ e = MoveFailed f folder.

(** The events of a complete run of [apply_moves]: for every folder of
    the plan, in order, the [mkdir] of its target and then one status
    line for each of its files, in order. *)
Inductive plan_trace (base : path) : list (str * list path) -> list event -> Prop :=
| plan_trace_nil : plan_trace base [] []
| plan_trace_cons (folder : str) (files : list path)
                  (rest : list (str * list path)) (evs t : list event) :
    Forall2 (outcome_of folder) files evs ->
    plan_trace base rest t ->
    plan_trace base ((folder, files) :: rest)
               (Mkdir (joinpath base folder) :: evs ++ t).

(** The event names the file [p]: [p] is among the names of a batch
    request, or the file a live request is about, or the source of a
    move. *)
Definition event_involves (p : path) (e : event) : Prop :=
  match e with
  | Asked (BatchRequest file_list _) => In (name p) file_list
  | Asked (LiveRequest _ file_name) => file_name = name p
  | Moved f _ | MoveFailed f _ => f = p
  | Mkdir _ => False
  end.

(** A line feed, and an answer wrapped in a code fence: the opening
    marker, the body on lines of its own, the closing marker. *)
Definition nl : str := [10%N].

Definition fenced (opening body : str) : str :=
  opening ++ nl ++ body ++ nl ++ py "```".

(** The entries [iterdir] lists for the directory [d]. *)
Definition listing (f : FS) (d : path) : list path :=
  map (fun n => d ++ [n])
      (children f (match canon f d with Some q => q | None => [] end)).

(** The request [classify_single_file] sends for [file_path] in the
    world [w]. *)
Definition live_request (home : path) (w : World) (file_path : path) : request :=
  LiveRequest
    (map name (filter (is_dir (fs w)) (listing (fs w) (BASE_FOLDER home))))
    (name file_path).

(** The three conditions [handle_new_file] checks before it asks. *)
Definition eligible (home : path) (w : World) (file_path : path) : Prop :=
  is_file (fs w) file_path = true /\
  parent file_path = BASE_FOLDER home /\
  should_ignore file_path = false.

(** Every event of a run is the [mkdir] of the target of a key of the
    plan, or the status line of a member of the plan. *)
Definition plan_event (base : path) (plan : list (str * list path)) (e : event) : Prop :=
  (exists folder, In folder (keys plan) /\ e = Mkdir (joinpath base folder)) \/
  (exists folder members f,
      In (folder, members) plan /\ In f members /\ outcome_of folder f e).

(** ** Sample worlds for the examples *)

(** The double quote, as a one-character literal. *)
Definition dq : string := String "034"%char EmptyString.

(** The answer [{"folder": "a"}] of the provider in live mode. *)
Definition folder_answer (a : string) : str :=
  py ("{" ++ dq ++ "folder" ++ dq ++ ": " ++ dq ++ a ++ dq ++ "}").

Definition sample_home : path := [py "home"; py "user"].

Definition sample_root : path := BASE_FOLDER sample_home.

(** The watched root and the directories above it. *)
Definition sample_dirs : FS :=
  [([py "home"], Dir); (sample_home, Dir);
   (sample_home ++ [py "Projects"], Dir); (sample_root, Dir)].

(** A root without any folder, holding one file. *)
Definition lonely_world : World :=
  mkWorld (sample_dirs ++ [(sample_root ++ [py "report.pdf"], File)]) [].

(** Three loose files and a hidden one in the root. *)
Definition sample_files : list path :=
  [sample_root ++ [py "invoice1.pdf"]; sample_root ++ [py "invoice2.pdf"];
   sample_root ++ [py "song.mp3"]].

Definition hidden_file : path := sample_root ++ [py ".DS_Store"].

Definition batch_world : World :=
  mkWorld (sample_dirs ++ map (fun f => (f, File)) sample_files ++ [(hidden_file, File)]) [].

(** A batch answer with a name that is not a candidate ([ghost.pdf]) and
    a group that matches no candidate ([Empty]). *)
Definition batch_answer : str :=
  py ("{" ++ dq ++ "Receipts" ++ dq ++ ": ["
          ++ dq ++ "invoice1.pdf" ++ dq ++ ", "
          ++ dq ++ "invoice2.pdf" ++ dq ++ ", "
          ++ dq ++ "ghost.pdf" ++ dq ++ "], "
          ++ dq ++ "Music" ++ dq ++ ": [" ++ dq ++ "song.mp3" ++ dq ++ "], "
          ++ dq ++ "Empty" ++ dq ++ ": [" ++ dq ++ "nothing.txt" ++ dq ++ "]}").

Definition batch_request : request :=
  BatchRequest [py "invoice1.pdf"; py "invoice2.pdf"; py "song.mp3"] MAX_FOLDERS.

Definition sample_plan : list (str * list path) :=
  [(py "Receipts", [sample_root ++ [py "invoice1.pdf"]; sample_root ++ [py "invoice2.pdf"]]);
   (py "Music", [sample_root ++ [py "song.mp3"]])].

(** A root that holds a folder and a hidden file only. *)
Definition tidy_world : World :=
  mkWorld (sample_dirs ++ [(sample_root ++ [py "Taxes"], Dir); (hidden_file, File)]) [].

(** ** Vocabulary of the further properties *)

(** A name as a file system gives it to an entry: not empty, without a
    path separator, and neither [.] nor [..]. *)
Definition plain_name (n : str) : Prop :=
  ~ In (ch "/") n /\ n <> [] /\ n <> py "." /\ n <> py "..".

(** The file [f] is a member of the folder [k] of the map [m]. *)
Definition assigned (m : list (str * list path)) (k : str) (f : path) : Prop :=
  exists members, In (k, members) m /\ In f members.

(** The raw answer lists the name of [f] under a folder whose sanitised
    name is [k]. *)
Definition listed (items : list (str * json)) (k : str) (f : path) : Prop :=
  exists raw filenames,
    In (raw, filenames) items /\ sanitize_folder raw = k /\
    py_in (name f) filenames = Ret true.


(** What live mode can do to a world: any number of [on_created] events,
    each with its own answer of the provider. *)
Inductive live_run (home : path) : World -> World -> Prop :=
| live_run_nil (w : World) : live_run home w w
| live_run_cons (w w1 w2 : World) (g : request -> str) (is_directory : bool)
                (src_path : path) (r : result unit) :
    on_created home g is_directory src_path w = (r, w1) ->
    live_run home w1 w2 ->
    live_run home w w2.

(** The event is a call of the provider. *)
Definition is_request (e : event) : bool :=
  match e with Asked _ => true | _ => false end.

(** ** A plan that stops half-way

    The root holds the files [notes] and [todo.txt] and the folder
    [Archive], which already holds a folder [notes] with an entry
    [notes] in it.  The provider sends [notes] to [Archive] and opens a
    folder [notes] for [todo.txt]. *)

Definition clash_world : World :=
  mkWorld (sample_dirs ++
           [(sample_root ++ [py "Archive"], Dir);
            (sample_root ++ [py "Archive"; py "notes"], Dir);
            (sample_root ++ [py "Archive"; py "notes"; py "notes"], File);
            (sample_root ++ [py "notes"], File);
            (sample_root ++ [py "todo.txt"], File)]) [].

Definition clash_files : list path :=
  [sample_root ++ [py "notes"]; sample_root ++ [py "todo.txt"]].

Definition clash_answer : str :=
  py ("{" ++ dq ++ "Archive" ++ dq ++ ": [" ++ dq ++ "notes" ++ dq ++ "], "
          ++ dq ++ "notes" ++ dq ++ ": [" ++ dq ++ "todo.txt" ++ dq ++ "]}").

Definition clash_request : request :=
  BatchRequest [py "notes"; py "todo.txt"] MAX_FOLDERS.

Definition clash_plan : list (str * list path) :=
  [(py "Archive", [sample_root ++ [py "notes"]]);
   (py "notes", [sample_root ++ [py "todo.txt"]])].

(** A batch answer that says nothing about [song.mp3]. *)
Definition partial_answer : str :=
  py ("{" ++ dq ++ "Receipts" ++ dq ++ ": ["
          ++ dq ++ "invoice1.pdf" ++ dq ++ ", "
          ++ dq ++ "invoice2.pdf" ++ dq ++ "]}").

(** * Properties *)

(** ** The decoder always finishes *)

Module JsonFacts.
Import Json.

Lemma skip_ws_length (s : str) : length (skip_ws s) <= length s.
Proof.
  induction s as [|c s IH]; simpl; [lia|]. destruct (is_ws c); simpl; lia.
Qed.

Lemma span_digits_length (s : str) : length (snd (span_digits s)) <= length s.
Proof.
  induction s as [|c s IH]; simpl; [lia|].
  destruct (is_digit c); simpl; [|lia].
  destruct (span_digits s) as [ds r]. simpl in *. lia.
Qed.

Lemma scanstring_length (n : nat) :
  forall (s acc v r : str),
    length s <= n -> scanstring s acc = Some (v, r) -> length r < length s.
Proof.
  induction n as [|n IH]; intros s acc v r Hn H.
  - destruct s; [discriminate H | simpl in Hn; lia].
  - destruct s as [|c s1]; [discriminate H|].
    cbn [scanstring] in H.
    repeat match type of H with
           | (if ?b then _ else _) = _ => destruct b
           | match ?x with _ => _ end = _ => destruct x
           end;
      try discriminate H;
      try (injection H as _ <-; simpl; lia);
      try (apply IH in H; simpl in *; lia).
Qed.

Lemma after_length (p s r : str) : after p s = Some r -> length s = length p + length r.
Proof.
  revert s. induction p as [|x p IH]; intros s; simpl.
  - intros H. now injection H as <-.
  - destruct s as [|c s]; [discriminate|]. destruct (N.eqb c x); [|discriminate].
    intros H. apply IH in H. simpl. lia.
Qed.

Lemma literal_length (lit : string) (v w : json) (s r : str) :
  lit <> EmptyString -> literal lit v s = POk w r -> length r < length s.
Proof.
  unfold literal. intros Hl. destruct (after (py lit) s) as [r'|] eqn:E; [|discriminate].
  intros H. injection H as _ <-. apply after_length in E.
  destruct lit; [contradiction|]. simpl in E. lia.
Qed.

Lemma match_int_length (s i r : str) :
  match_int s = Some (i, r) -> length r < length s.
Proof.
  unfold match_int. destruct s as [|c s]; [discriminate|].
  destruct (N.eqb c 48).
  - intros H. injection H as _ <-. simpl. lia.
  - destruct (is_digit c); [|discriminate].
    pose proof (span_digits_length s) as Hl. destruct (span_digits s) as [ds r'].
    intros H. injection H as _ <-. simpl in *. lia.
Qed.

Lemma match_frac_length (s : str) : length (snd (match_frac s)) <= length s.
Proof.
  unfold match_frac. destruct s as [|dot [|d s]]; simpl; try lia.
  destruct (N.eqb dot 46 && is_digit d); simpl; [|lia].
  pose proof (span_digits_length s) as Hl. destruct (span_digits s). simpl in *. lia.
Qed.

Lemma match_exp_length (s : str) : length (snd (match_exp s)) <= length s.
Proof.
  unfold match_exp. destruct s as [|e r]; simpl; [lia|].
  destruct (N.eqb e 101 || N.eqb e 69); simpl; [|lia].
  destruct r as [|sg r'].
  - simpl. lia.
  - destruct (N.eqb sg 45 || N.eqb sg 43).
    + pose proof (span_digits_length r') as Hl.
      destruct (span_digits r') as [[|d ds] r2]; simpl in *; lia.
    + pose proof (span_digits_length (sg :: r')) as Hl.
      destruct (span_digits (sg :: r')) as [[|d ds] r2]; simpl in *; lia.
Qed.

Lemma match_number_length (s lx r : str) :
  match_number s = Some (lx, r) -> length r < length s.
Proof.
  unfold match_number.
  set (p := match s with
            | [] => ([], s)
            | c :: r0 => if N.eqb c 45 then ([c], r0) else ([], s)
            end).
  assert (Hp : length (snd p) <= length s).
  { unfold p. destruct s as [|c r0]; simpl; [lia|]. destruct (N.eqb c 45); simpl; lia. }
  destruct p as [sign s1]. simpl in Hp.
  destruct (match_int s1) as [[i r1]|] eqn:Ei; [|discriminate].
  apply match_int_length in Ei.
  pose proof (match_frac_length r1) as Hf. destruct (match_frac r1) as [f r2].
  pose proof (match_exp_length r2) as He. destruct (match_exp r2) as [e r3].
  intros H. injection H as _ <-. simpl in *. lia.
Qed.

Lemma number_length (s r : str) (v : json) : number s = POk v r -> length r < length s.
Proof.
  unfold number. destruct (match_number s) as [[lx r']|] eqn:E; [|discriminate].
  intros H. injection H as _ <-. now apply match_number_length in E.
Qed.

(** Each scanner consumes at least one character. *)
Lemma scanners_consume (fuel : nat) :
  (forall s v r, scan_once fuel s = POk v r -> length r < length s) /\
  (forall acc s v r, parse_elements fuel acc s = POk v r -> length r < length s) /\
  (forall acc s v r, parse_members fuel acc s = POk v r -> length r < length s).
Proof.
  induction fuel as [|fuel (IHv & IHe & IHm)]; [repeat split; discriminate|].
  split; [|split].
  - intros s v r. cbn [scan_once]. destruct s as [|c s0]; [discriminate|].
    intros H.
    repeat match type of H with
           | (if ?b then _ else _) = _ => destruct b
           end.
    + destruct (scanstring s0 []) as [[v' r']|] eqn:E; [|discriminate].
      injection H as _ <-. apply (@scanstring_length (length s0)) in E; simpl; lia.
    + pose proof (skip_ws_length s0) as Hl.
      destruct (skip_ws s0) as [|c' r']; [discriminate|].
      destruct (N.eqb c' 125).
      * injection H as _ <-. simpl in *. lia.
      * apply IHm in H. simpl in *. lia.
    + pose proof (skip_ws_length s0) as Hl.
      destruct (skip_ws s0) as [|c' r']; [discriminate|].
      destruct (N.eqb c' 93).
      * injection H as _ <-. simpl in *. lia.
      * apply IHe in H. simpl in *. lia.
    + apply literal_length in H; [assumption | discriminate].
    + apply literal_length in H; [assumption | discriminate].
    + apply literal_length in H; [assumption | discriminate].
    + apply literal_length in H; [assumption | discriminate].
    + apply literal_length in H; [assumption | discriminate].
    + apply literal_length in H; [assumption | discriminate].
    + now apply number_length in H.
  - intros acc s v r. cbn [parse_elements].
    destruct (scan_once fuel s) as [v' r'| |] eqn:E; try discriminate.
    apply IHv in E. pose proof (skip_ws_length r') as Hl.
    destruct (skip_ws r') as [|c r'']; [discriminate|].
    destruct (N.eqb c 93).
    + intros H. injection H as _ <-. simpl in *. lia.
    + destruct (N.eqb c 44); [|discriminate].
      intros H. apply IHe in H. pose proof (skip_ws_length r''). simpl in *. lia.
  - intros acc s v r. cbn [parse_members].
    destruct s as [|q r0]; [discriminate|].
    destruct (N.eqb q quote); [|discriminate].
    destruct (scanstring r0 []) as [[k r1]|] eqn:Ek; [|discriminate].
    apply (@scanstring_length (length r0)) in Ek; [|lia].
    pose proof (skip_ws_length r1) as Hl1.
    destruct (skip_ws r1) as [|colon r2]; [discriminate|].
    destruct (N.eqb colon 58); [|discriminate].
    pose proof (skip_ws_length r2) as Hl2.
    destruct (scan_once fuel (skip_ws r2)) as [v' r3| |] eqn:E; try discriminate.
    apply IHv in E. pose proof (skip_ws_length r3) as Hl3.
    destruct (skip_ws r3) as [|c r4]; [discriminate|].
    destruct (N.eqb c 125).
    + intros H. injection H as _ <-. simpl in *. lia.
    + destruct (N.eqb c 44); [|discriminate].
      intros H. apply IHm in H. pose proof (skip_ws_length r4). simpl in *. lia.
Qed.

(** The recursion budget [loads] hands out is never used up. *)
Lemma scanners_fuel (fuel : nat) :
  (forall s, 2 * length s < fuel -> scan_once fuel s <> PFuel) /\
  (forall acc s, 2 * length s + 1 < fuel -> parse_elements fuel acc s <> PFuel) /\
  (forall acc s, 2 * length s + 1 < fuel -> parse_members fuel acc s <> PFuel).
Proof.
  induction fuel as [|fuel (IHv & IHe & IHm)]; [repeat split; intros; lia|].
  split; [|split].
  - intros s Hf. cbn [scan_once]. destruct s as [|c s0]; [discriminate|].
    unfold literal, number.
    repeat match goal with
           | |- (if ?b then _ else _) <> _ => destruct b
           | |- match after ?p ?s with _ => _ end <> _ => destruct (after p s)
           | |- match scanstring ?s ?a with _ => _ end <> _ =>
               destruct (scanstring s a) as [[? ?]|]
           | |- match match_number ?s with _ => _ end <> _ =>
               destruct (match_number s) as [[? ?]|]
           end; try discriminate.
    + pose proof (skip_ws_length s0) as Hl.
      destruct (skip_ws s0) as [|c' r']; [discriminate|].
      destruct (N.eqb c' 125); [discriminate|]. apply IHm. simpl in *. lia.
    + pose proof (skip_ws_length s0) as Hl.
      destruct (skip_ws s0) as [|c' r']; [discriminate|].
      destruct (N.eqb c' 93); [discriminate|]. apply IHe. simpl in *. lia.
  - intros acc s Hf. cbn [parse_elements].
    destruct (scan_once fuel s) as [v' r'| |] eqn:E; try discriminate.
    + apply (proj1 (scanners_consume fuel)) in E.
      pose proof (skip_ws_length r') as Hl.
      destruct (skip_ws r') as [|c r'']; [discriminate|].
      destruct (N.eqb c 93); [discriminate|].
      destruct (N.eqb c 44); [|discriminate].
      apply IHe. pose proof (skip_ws_length r''). simpl in *. lia.
    + exfalso. revert E. apply IHv. lia.
  - intros acc s Hf. cbn [parse_members].
    destruct s as [|q r0]; [discriminate|].
    destruct (N.eqb q quote); [|discriminate].
    destruct (scanstring r0 []) as [[k r1]|] eqn:Ek; [|discriminate].
    apply (@scanstring_length (length r0)) in Ek; [|lia].
    pose proof (skip_ws_length r1) as Hl1.
    destruct (skip_ws r1) as [|colon r2]; [discriminate|].
    destruct (N.eqb colon 58); [|discriminate].
    pose proof (skip_ws_length r2) as Hl2.
    destruct (scan_once fuel (skip_ws r2)) as [v' r3| |] eqn:E; try discriminate.
    + apply (proj1 (scanners_consume fuel)) in E.
      pose proof (skip_ws_length r3) as Hl3.
      destruct (skip_ws r3) as [|c r4]; [discriminate|].
      destruct (N.eqb c 125); [discriminate|].
      destruct (N.eqb c 44); [|discriminate].
      apply IHm. pose proof (skip_ws_length r4). simpl in *. lia.
    + exfalso. revert E. apply IHv. simpl in *. lia.
Qed.

(** [loads] never stops for lack of budget: when it returns [None], the
    decoder met a syntax error or text after the value. *)
Lemma scan_once_fuel (s : str) :
  scan_once (2 * length (skip_ws s) + 1) (skip_ws s) <> PFuel.
Proof. apply (proj1 (scanners_fuel _)). lia. Qed.

End JsonFacts.

(** ** Equality tests *)

Lemma str_eqb_eq (a b : str) : str_eqb a b = true <-> a = b.
Proof.
  revert b. induction a as [|x a IH]; intros [|y b]; simpl; split;
    try discriminate; try reflexivity.
  - intros H. apply andb_true_iff in H as [H1 H2].
    apply N.eqb_eq in H1. apply IH in H2. congruence.
  - intros H. injection H as -> ->. rewrite N.eqb_refl. simpl. now apply IH.
Qed.

Lemma str_eqb_refl (a : str) : str_eqb a a = true.
Proof. now apply str_eqb_eq. Qed.

Lemma str_eqb_neq (a b : str) : str_eqb a b = false <-> a <> b.
Proof.
  split.
  - intros H E. apply str_eqb_eq in E. congruence.
  - intros H. destruct (str_eqb a b) eqn:E; [|reflexivity].
    apply str_eqb_eq in E. contradiction.
Qed.

Lemma path_eqb_eq (a b : path) : path_eqb a b = true <-> a = b.
Proof.
  revert b. induction a as [|x a IH]; intros [|y b]; simpl; split;
    try discriminate; try reflexivity.
  - intros H. apply andb_true_iff in H as [H1 H2].
    apply str_eqb_eq in H1. apply IH in H2. congruence.
  - intros H. injection H as -> ->. rewrite str_eqb_refl. simpl. now apply IH.
Qed.

Lemma path_eqb_refl (a : path) : path_eqb a a = true.
Proof. now apply path_eqb_eq. Qed.

Lemma mem_str_In (x : str) (l : list str) : mem_str x l = true <-> In x l.
Proof.
  unfold mem_str. rewrite existsb_exists. split.
  - intros (y & Hy & E). apply str_eqb_eq in E. now subst.
  - intros H. exists x. split; [assumption | apply str_eqb_refl].
Qed.

(** ** [strip] and [replace] *)

Lemma lstrip_app_nonspace (l : str) (c : char) :
  isspace c = false -> lstrip (l ++ [c]) = lstrip l ++ [c].
Proof.
  intros Hc. induction l as [|x l IH]; simpl.
  - now rewrite Hc.
  - destruct (isspace x); [assumption | reflexivity].
Qed.

Lemma lstrip_idem (s : str) : lstrip (lstrip s) = lstrip s.
Proof.
  induction s as [|c s IH]; simpl; [reflexivity|].
  destruct (isspace c) eqn:E; [assumption|]. simpl. now rewrite E.
Qed.

Lemma rstrip_idem (s : str) : rstrip (rstrip s) = rstrip s.
Proof. unfold rstrip. now rewrite rev_involutive, lstrip_idem. Qed.

Lemma rstrip_cons_nonspace (c : char) (s : str) :
  isspace c = false -> rstrip (c :: s) = c :: rstrip s.
Proof.
  intros Hc. unfold rstrip. simpl.
  rewrite lstrip_app_nonspace by assumption.
  now rewrite rev_app_distr.
Qed.

(** A string that does not begin with white space keeps its beginning
    when its end is stripped. *)
Lemma lstrip_rstrip_lstrip (s : str) : lstrip (rstrip (lstrip s)) = rstrip (lstrip s).
Proof.
  induction s as [|c s IH]; simpl; [reflexivity|].
  destruct (isspace c) eqn:E; [assumption|].
  rewrite rstrip_cons_nonspace by assumption. simpl. now rewrite E.
Qed.

Lemma strip_idem (s : str) : strip (strip s) = strip s.
Proof.
  unfold strip. rewrite lstrip_rstrip_lstrip. apply rstrip_idem.
Qed.

Lemma lstrip_map (f : char -> char) (s : str) :
  (forall c, isspace (f c) = isspace c) ->
  lstrip (map f s) = map f (lstrip s).
Proof.
  intros Hf. induction s as [|c s IH]; simpl; [reflexivity|].
  rewrite Hf. destruct (isspace c); [assumption | reflexivity].
Qed.

Lemma strip_map (f : char -> char) (s : str) :
  (forall c, isspace (f c) = isspace c) ->
  strip (map f s) = map f (strip s).
Proof.
  intros Hf. unfold strip, rstrip.
  rewrite lstrip_map, <- map_rev, lstrip_map, map_rev by assumption.
  reflexivity.
Qed.

Lemma replace_char (x y : char) (s : str) :
  replace [x] [y] s = map (subst_char x y) s.
Proof.
  unfold replace. induction s as [|c s IH]; simpl; [reflexivity|].
  unfold subst_char at 1. destruct (N.eqb c x); simpl; now rewrite IH.
Qed.

Lemma subst_slash_space (c : char) :
  isspace (subst_char (ch "/") (ch "_") c) = isspace c.
Proof.
  unfold subst_char. destruct (N.eqb c (ch "/")) eqn:E; [|reflexivity].
  apply N.eqb_eq in E. subst c. reflexivity.
Qed.

Lemma subst_slash_idem (c : char) :
  subst_char (ch "/") (ch "_") (subst_char (ch "/") (ch "_") c)
  = subst_char (ch "/") (ch "_") c.
Proof.
  unfold subst_char. destruct (N.eqb c (ch "/")) eqn:E; [reflexivity|].
  now rewrite E.
Qed.

Lemma sanitize_folder_map (nm : str) :
  sanitize_folder nm = strip (map (subst_char (ch "/") (ch "_")) nm).
Proof. unfold sanitize_folder. now rewrite <- replace_char. Qed.

(** No path separator survives [sanitize_folder]. *)
Lemma sanitize_folder_no_slash (nm : str) : ~ In (ch "/") (sanitize_folder nm).
Proof.
  rewrite sanitize_folder_map, strip_map by apply subst_slash_space.
  rewrite in_map_iff. intros (c & E & _). unfold subst_char in E.
  destruct (N.eqb c (ch "/")) eqn:Ec.
  - discriminate E.
  - subst c. now rewrite N.eqb_refl in Ec.
Qed.

(** C5. [sanitize_folder] is a total function from strings to strings
    (it is defined on every [str] and raises nothing), and it is
    idempotent: sanitising a sanitised name changes nothing, whatever
    separators and surrounding white space the name contains. *)
Theorem sanitize_folder_idempotent (x : str) :
  (exists y : str, sanitize_folder x = y) /\
  sanitize_folder (sanitize_folder x) = sanitize_folder x.
Proof.
  split; [eexists; reflexivity|].
  rewrite !sanitize_folder_map.
  rewrite (strip_map _ (strip _)) by apply subst_slash_space.
  rewrite strip_idem.
  rewrite <- strip_map by apply subst_slash_space.
  rewrite map_map. f_equal. apply map_ext. apply subst_slash_idem.
Qed.

(** ** The folder map built by [batch_classify] *)

Lemma str_eqb_sym (a b : str) : str_eqb a b = str_eqb b a.
Proof.
  destruct (str_eqb a b) eqn:E, (str_eqb b a) eqn:E'; try reflexivity.
  - apply str_eqb_eq in E. subst. now rewrite str_eqb_refl in E'.
  - apply str_eqb_eq in E'. subst. now rewrite str_eqb_refl in E.
Qed.

Lemma keys_setdefault_append (m : list (str * list path)) (k : str) (f : path) :
  keys (setdefault_append m k f)
  = if mem_str k (keys m) then keys m else keys m ++ [k].
Proof.
  unfold mem_str, keys.
  induction m as [|[k' l] m IH]; simpl; [reflexivity|].
  rewrite (str_eqb_sym k k').
  destruct (str_eqb k' k) eqn:E; simpl; [reflexivity|].
  rewrite IH. now destruct (existsb (str_eqb k) (map fst m)).
Qed.

Lemma In_setdefault_append (m : list (str * list path)) (k : str) (f : path)
      (k' : str) (l' : list path) :
  In (k', l') (setdefault_append m k f) ->
  In (k', l') m \/
  (k' = k /\ exists l, l' = l ++ [f] /\ (l = [] \/ In (k, l) m)).
Proof.
  induction m as [|[k0 l0] m IH]; simpl.
  - intros [H|[]]. injection H as <- <-. right. split; [reflexivity|].
    exists []. split; [reflexivity | now left].
  - destruct (str_eqb k0 k) eqn:E.
    + apply str_eqb_eq in E. subst k0. intros [H|H].
      * injection H as <- <-. right. split; [reflexivity|].
        exists l0. split; [reflexivity | right; now left].
      * left. now right.
    + intros [H|H].
      * left. now left.
      * destruct (IH H) as [H1|(-> & l & -> & [->|H2])].
        -- left. now right.
        -- right. split; [reflexivity|]. exists []. split; [reflexivity | now left].
        -- right. split; [reflexivity|]. exists l. split; [reflexivity|].
           right. now right.
Qed.

Section FolderMap.

Variable files : list path.

Lemma entry_ok_weaken (items items' : list (str * json)) (e : str * list path) :
  incl items items' -> entry_ok files items e -> entry_ok files items' e.
Proof.
  intros Hi (H1 & H2 & raw & fn & f & H3 & H4).
  repeat split; try assumption. exists raw, fn, f. split; [now apply Hi | assumption].
Qed.

Lemma map_ok_weaken (items items' : list (str * json)) (m : list (str * list path)) :
  incl items items' -> map_ok files items m -> map_ok files items' m.
Proof.
  intros Hi [H1 H2]. split; [assumption|].
  eapply Forall_impl; [|exact H2]. intros e. now apply entry_ok_weaken.
Qed.

Lemma map_ok_setdefault_append (items : list (str * json))
      (m : list (str * list path)) (raw : str) (filenames : json) (f : path) :
  In (raw, filenames) items -> In f files ->
  py_in (name f) filenames = Ret true ->
  map_ok files items m ->
  map_ok files items (setdefault_append m (sanitize_folder raw) f).
Proof.
  intros Hraw Hf Hin [Hnd Hall]. split.
  - rewrite keys_setdefault_append.
    destruct (mem_str (sanitize_folder raw) (keys m)) eqn:E; [assumption|].
    apply NoDup_app; [assumption | repeat constructor; intros [] |].
    intros x Hx [<-|[]]. apply mem_str_In in Hx. congruence.
  - apply Forall_forall. intros [k' l'] He.
    apply In_setdefault_append in He as [He|(-> & l & -> & Hl)].
    + rewrite Forall_forall in Hall. now apply Hall.
    + split; [|split].
      * simpl. now destruct l.
      * simpl. intros g Hg. apply in_app_or in Hg as [Hg|[<-|[]]]; [|assumption].
        destruct Hl as [->|Hl]; [destruct Hg|].
        rewrite Forall_forall in Hall. apply (Hall _ Hl). exact Hg.
      * exists raw, filenames, f. simpl. repeat split; assumption.
Qed.

Lemma assign_files_ok (items : list (str * json)) (raw : str) (filenames : json)
      (fl : list path) (m m' : list (str * list path)) :
  In (raw, filenames) items -> incl fl files ->
  map_ok files items m ->
  assign_files (sanitize_folder raw) filenames fl m = Ret m' ->
  map_ok files items m'.
Proof.
  intros Hraw. revert m. induction fl as [|f fl IH]; simpl; intros m Hfl Hm H.
  - now injection H as <-.
  - destruct (py_in (name f) filenames) as [[|]|e] eqn:E; [| |discriminate].
    + apply IH in H; [assumption | intros x Hx; apply Hfl; now right |].
      apply map_ok_setdefault_append with (filenames := filenames);
        try assumption. apply Hfl. now left.
    + apply IH in H; [assumption | intros x Hx; apply Hfl; now right | assumption].
Qed.

Lemma cluster_ok (all : list (str * json)) (items : list (str * json))
      (m m' : list (str * list path)) :
  incl items all -> map_ok files all m ->
  cluster items files m = Ret m' -> map_ok files all m'.
Proof.
  revert m. induction items as [|[raw fn] items IH]; simpl; intros m Hi Hm H.
  - now injection H as <-.
  - destruct (assign_files (sanitize_folder raw) fn files m) as [m1|e] eqn:E;
      [|discriminate].
    apply IH in H; [assumption | intros x Hx; apply Hi; now right |].
    eapply assign_files_ok; [| |exact Hm|exact E].
    + apply Hi. now left.
    + apply incl_refl.
Qed.

(** A raw folder under which no candidate is listed leaves the map as
    it was: it adds no key. *)
Lemma assign_files_no_match (clean : str) (filenames : json)
      (fl : list path) (m : list (str * list path)) :
  (forall f, In f fl -> py_in (name f) filenames = Ret false) ->
  assign_files clean filenames fl m = Ret m.
Proof.
  induction fl as [|f fl IH]; simpl; intros H; [reflexivity|].
  rewrite (H f) by now left. apply IH. intros g Hg. apply H. now right.
Qed.

Lemma materialize_ok (data : json) (plan : list (str * list path)) :
  materialize data files = Ret plan ->
  exists items, data = JObj items /\ map_ok files items plan.
Proof.
  destruct data; simpl; try discriminate. intros H.
  exists members. split; [reflexivity|].
  eapply cluster_ok; [apply incl_refl | | exact H].
  split; constructor.
Qed.

(** The keys of the map are sanitised raw keys, so there are no more
    of them than distinct raw keys. *)
Lemma map_ok_count (items : list (str * json)) (m : list (str * list path)) :
  map_ok files items m -> length m <= distinct (keys items).
Proof.
  intros [Hnd Hall]. unfold distinct.
  rewrite <- (length_map fst m). fold (keys m).
  rewrite <- (length_map sanitize_folder (nodup str_eq_dec (keys items))).
  apply NoDup_incl_length; [assumption|].
  intros k Hk. unfold keys in Hk. apply in_map_iff in Hk as ([k' l] & <- & He).
  rewrite Forall_forall in Hall.
  destruct (Hall _ He) as (_ & _ & raw & fn & f & H1 & H2 & _).
  simpl in *. rewrite <- H2. apply in_map. apply nodup_In.
  unfold keys. apply in_map_iff. now exists (raw, fn).
Qed.

End FolderMap.

(** ** Running the script: what each function adds to the trace *)

Lemma batch_classify_run (g : request -> str) (files : list path) (w : World) :
  batch_classify g files w =
  (match raw_result (g (BatchRequest (map name files) MAX_FOLDERS)) with
   | None => Ret []
   | Some data => materialize data files
   end,
   mkWorld (fs w) (trace w ++ [Asked (BatchRequest (map name files) MAX_FOLDERS)])).
Proof.
  unfold batch_classify, ask, bind, emit, ret, lift, raw_result. simpl.
  now destruct (Json.loads _).
Qed.

(** Case analysis on every [match] and [if] of a goal. *)
Ltac break_match :=
  repeat match goal with
         | |- context [match ?x with _ => _ end] => destruct x eqn:?
         end.

Lemma os_rename_trace (src dst : path) (w w' : World) (r : result unit) :
  os_rename src dst w = (r, w') -> trace w' = trace w.
Proof.
  unfold os_rename, bind, get_fs, put_fs, raise, ret.
  break_match; intros H; injection H as <- <-; reflexivity.
Qed.

Lemma shutil_move_trace (src dst : path) (w w' : World) (r : result unit) :
  shutil_move src dst w = (r, w') -> trace w' = trace w.
Proof.
  unfold shutil_move, bind, get_fs at 1. simpl.
  break_match; try apply os_rename_trace.
  unfold raise. intros H. now injection H as <- <-.
Qed.

(** One guarded move of [apply_moves]: it returns normally and prints
    one status line. *)
Lemma guarded_move_run (folder : str) (target f : path) (w : World) :
  exists (w' : World) (e : event),
    try_except
      (shutil_move f (joinpath target (name f)) ;; emit (Moved f folder))
      (fun _ => emit (MoveFailed f folder)) w = (Ret tt, w') /\
    trace w' = trace w ++ [e] /\ outcome_of folder f e.
Proof.
  unfold try_except, bind.
  destruct (shutil_move f (joinpath target (name f)) w) as [[[]|e] w1] eqn:E;
    apply shutil_move_trace in E; unfold emit; simpl.
  - eexists _, _. split; [reflexivity|]. simpl. rewrite E. split; [reflexivity | now left].
  - eexists _, _. split; [reflexivity|]. simpl. rewrite E. split; [reflexivity | now right].
Qed.

(** The loop over the files of one folder never raises: every file gets
    its status line, whatever happened to the files before it. *)
Lemma move_files_run (folder : str) (target : path) (files : list path) (w : World) :
  exists (w' : World) (evs : list event),
    move_files folder target files w = (Ret tt, w') /\
    trace w' = trace w ++ evs /\
    Forall2 (outcome_of folder) files evs.
Proof.
  revert w. induction files as [|f files IH]; intros w; simpl.
  - exists w, []. rewrite app_nil_r. repeat split. constructor.
  - destruct (guarded_move_run folder target f w) as (w1 & e & H1 & H2 & H3).
    destruct (IH w1) as (w2 & evs & H4 & H5 & H6).
    exists w2, (e :: evs). unfold bind at 1. rewrite H1. split; [exact H4|].
    split; [|now constructor].
    rewrite H5, H2, <- app_assoc. reflexivity.
Qed.

Lemma mkdir_run (target : path) (w : World) :
  exists (r : result unit) (w' : World),
    mkdir target w = (r, w') /\ trace w' = trace w ++ [Mkdir target] /\
    (r = Ret tt \/ r = Raise OSError).
Proof.
  unfold mkdir, bind, emit, get_fs, put_fs, raise, ret. simpl.
  break_match; eexists _, _; (split; [reflexivity|]); simpl; auto.
Qed.

(** [apply_moves] either runs through the whole plan, or stops at the
    [mkdir] of some folder after having run through the folders before
    it; nothing else can stop it. *)
Lemma apply_moves_run (home : path) (plan : list (str * list path)) (w : World) :
  exists (r : result unit) (w' : World) (t : list event),
    apply_moves home plan w = (r, w') /\ trace w' = trace w ++ t /\
    ((r = Ret tt /\ plan_trace (BASE_FOLDER home) plan t) \/
     (r = Raise OSError /\
      exists (done : list (str * list path)) (folder : str) (files : list path)
             (rest : list (str * list path)) (t0 : list event),
        plan = done ++ (folder, files) :: rest /\
        plan_trace (BASE_FOLDER home) done t0 /\
        t = t0 ++ [Mkdir (joinpath (BASE_FOLDER home) folder)])).
Proof.
  revert w. induction plan as [|[folder files] plan IH]; intros w; simpl.
  - exists (Ret tt), w, []. rewrite app_nil_r. repeat split. left. split; constructor.
  - destruct (mkdir_run (joinpath (BASE_FOLDER home) folder) w)
      as (r1 & w1 & H1 & H2 & [->| ->]).
    + destruct (move_files_run folder (joinpath (BASE_FOLDER home) folder) files w1)
        as (w2 & evs & H3 & H4 & H5).
      destruct (IH w2) as (r & w3 & t & H6 & H7 & H8).
      exists r, w3, (Mkdir (joinpath (BASE_FOLDER home) folder) :: evs ++ t).
      unfold bind at 1. rewrite H1. unfold bind at 1. rewrite H3.
      split; [exact H6|]. split.
      * rewrite H7, H4, H2, <- !app_assoc. reflexivity.
      * destruct H8 as [[-> H8]|(-> & done & k & fl & rest & t0 & -> & H9 & ->)].
        -- left. split; [reflexivity | now constructor].
        -- right. split; [reflexivity|].
           exists ((folder, files) :: done), k, fl, rest,
             (Mkdir (joinpath (BASE_FOLDER home) folder) :: evs ++ t0).
           split; [reflexivity|]. split; [now constructor|].
           simpl. now rewrite <- app_assoc.
    + exists (Raise OSError), w1, [Mkdir (joinpath (BASE_FOLDER home) folder)].
      unfold bind at 1. rewrite H1. split; [reflexivity|]. split; [assumption|].
      right. split; [reflexivity|].
      exists [], folder, files, plan, []. repeat split. constructor.
Qed.

Lemma batch_classify_plan (g : request -> str) (files : list path)
      (w w' : World) (plan : list (str * list path)) :
  batch_classify g files w = (Ret plan, w') ->
  plan = [] \/
  exists items,
    raw_result (g (BatchRequest (map name files) MAX_FOLDERS)) = Some (JObj items) /\
    map_ok files items plan.
Proof.
  rewrite batch_classify_run. intros H. injection H as H _.
  destruct (raw_result _) as [data|].
  - right. apply materialize_ok in H as (items & -> & H). now exists items.
  - left. now injection H.
Qed.

Lemma outcome_not_mkdir (folder : str) (files : list path) (evs : list event)
      (target : path) :
  Forall2 (outcome_of folder) files evs -> ~ In (Mkdir target) evs.
Proof.
  induction 1 as [|f e files evs [-> | ->] _ IH]; simpl; [tauto| |];
    intros [E|Hin]; try discriminate E; now apply IH.
Qed.

Lemma plan_trace_mkdir (base : path) (plan : list (str * list path))
      (t : list event) (target : path) :
  plan_trace base plan t -> In (Mkdir target) t ->
  exists folder, In folder (keys plan) /\ target = joinpath base folder.
Proof.
  induction 1 as [|folder files rest evs t Hev _ IH]; simpl; [tauto|].
  intros [E|Hin].
  - injection E as <-. exists folder. split; [now left | reflexivity].
  - apply in_app_or in Hin as [Hin|Hin].
    + now apply outcome_not_mkdir with (target := target) in Hev.
    + destruct (IH Hin) as (k & Hk & ->). exists k. split; [now right | reflexivity].
Qed.

Lemma mkdir_of_plan (base : path) (plan : list (str * list path))
      (r : result unit) (t : list event) (target : path) :
  (r = Ret tt /\ plan_trace base plan t) \/
  (r = Raise OSError /\
   exists (done : list (str * list path)) (folder : str) (files : list path)
          (rest : list (str * list path)) (t0 : list event),
     plan = done ++ (folder, files) :: rest /\
     plan_trace base done t0 /\
     t = t0 ++ [Mkdir (joinpath base folder)]) ->
  In (Mkdir target) t ->
  exists folder, In folder (keys plan) /\ target = joinpath base folder.
Proof.
  intros [[_ H]|(_ & done & folder & files & rest & t0 & -> & H & ->)] Hin.
  - eapply plan_trace_mkdir; eassumption.
  - unfold keys. rewrite map_app. simpl.
    apply in_app_or in Hin as [Hin|[E|[]]].
    + destruct (plan_trace_mkdir target H Hin) as (k & Hk & ->).
      exists k. split; [apply in_or_app; now left | reflexivity].
    + injection E as <-. exists folder.
      split; [apply in_or_app; right; now left | reflexivity].
Qed.

(** ** The batch phase *)

(** C3. Whatever the provider answers, every member of every folder of
    the resulting plan is one of the candidate files; so a file name
    that is not the name of a candidate occurs in no member list, even
    when the answer lists it. *)
Theorem batch_classify_drops_unknown_names
        (g : request -> str) (files : list path) (w w' : World)
        (plan : list (str * list path)) :
  batch_classify g files w = (Ret plan, w') ->
  forall (folder : str) (members : list path),
    In (folder, members) plan ->
    (forall f, In f members -> In f files) /\
    (forall n, ~ In n (map name files) -> ~ In n (map name members)).
Proof.
  intros H folder members Hin.
  assert (Hm : forall f, In f members -> In f files).
  { apply batch_classify_plan in H as [->|(items & _ & _ & Hall)]; [destruct Hin|].
    rewrite Forall_forall in Hall. now destruct (Hall _ Hin) as (_ & Hok & _). }
  split; [exact Hm|].
  intros n Hn Hmem. apply Hn. apply in_map_iff in Hmem as (f & <- & Hf).
  apply in_map. now apply Hm.
Qed.

(** C4. When the decoded answer has at most [MAX_FOLDERS] distinct
    folder keys, the plan has at most [MAX_FOLDERS] keys (and no key
    twice). *)
Theorem batch_classify_respects_ceiling
        (g : request -> str) (files : list path) (w w' : World)
        (plan : list (str * list path)) :
  batch_classify g files w = (Ret plan, w') ->
  (forall items,
      raw_result (g (BatchRequest (map name files) MAX_FOLDERS)) = Some (JObj items) ->
      distinct (keys items) <= MAX_FOLDERS) ->
  NoDup (keys plan) /\ length (keys plan) <= MAX_FOLDERS.
Proof.
  intros H Hceil.
  apply batch_classify_plan in H as [->|(items & Hraw & Hok)].
  - split; [constructor | simpl; lia].
  - split; [apply Hok|]. unfold keys at 1. rewrite length_map.
    apply map_ok_count in Hok. specialize (Hceil _ Hraw). lia.
Qed.

(** C10. Every key of the plan has a non-empty member list, and it is
    the sanitised name of a raw folder under which some candidate file
    is listed: a raw folder that matches no candidate adds nothing to
    the map.  When the plan is applied, [mkdir] is called for the
    targets of the plan's keys only, so no directory is made for an
    empty group. *)
Theorem batch_classify_no_empty_group
        (home : path) (g : request -> str) (files : list path) (w w' : World)
        (plan : list (str * list path)) :
  batch_classify g files w = (Ret plan, w') ->
  (forall folder members, In (folder, members) plan -> members <> []) /\
  (forall folder members,
      In (folder, members) plan ->
      exists raw filenames f items,
        raw_result (g (BatchRequest (map name files) MAX_FOLDERS)) = Some (JObj items) /\
        In (raw, filenames) items /\ sanitize_folder raw = folder /\
        In f files /\ py_in (name f) filenames = Ret true) /\
  (forall clean filenames m,
      (forall f, In f files -> py_in (name f) filenames = Ret false) ->
      assign_files clean filenames files m = Ret m) /\
  (forall w0 r w1 target,
      apply_moves home plan w0 = (r, w1) ->
      In (Mkdir target) (trace w1) ->
      In (Mkdir target) (trace w0) \/
      exists folder, In folder (keys plan) /\ target = joinpath (BASE_FOLDER home) folder).
Proof.
  intros H. apply batch_classify_plan in H.
  split; [|split; [|split]].
  - intros folder members Hin.
    destruct H as [->|(items & _ & _ & Hall)]; [destruct Hin|].
    rewrite Forall_forall in Hall. now destruct (Hall _ Hin) as (Hne & _).
  - intros folder members Hin.
    destruct H as [->|(items & Hraw & _ & Hall)]; [destruct Hin|].
    rewrite Forall_forall in Hall.
    destruct (Hall _ Hin) as (_ & _ & raw & fn & f & H1 & H2 & H3 & H4).
    now exists raw, fn, f, items.
  - intros clean filenames m. apply assign_files_no_match.
  - intros w0 r w1 target Hrun Hin.
    destruct (apply_moves_run home plan w0) as (r' & w1' & t & Hrun' & Ht & Hshape).
    rewrite Hrun in Hrun'. injection Hrun' as <- <-.
    rewrite Ht in Hin. apply in_app_or in Hin as [Hin|Hin]; [now left|].
    right. eapply mkdir_of_plan; eassumption.
Qed.

(** ** Paths and the watched root *)

Lemma BASE_FOLDER_eq (home : path) :
  BASE_FOLDER home = home ++ [py "Projects"; py "Pybox"].
Proof.
  unfold BASE_FOLDER, joinpath. simpl. now rewrite <- app_assoc.
Qed.

Lemma BASE_FOLDER_not_root (home : path) : BASE_FOLDER home <> [].
Proof. rewrite BASE_FOLDER_eq. now destruct home. Qed.

Lemma name_app (p : path) (n : str) : name (p ++ [n]) = n.
Proof. unfold name. apply last_last. Qed.

Lemma parent_app (p : path) (n : str) : parent (p ++ [n]) = p.
Proof. unfold parent. apply removelast_last. Qed.

Lemma child_of_parent (p q : path) :
  q <> [] -> parent p = q -> p = q ++ [name p].
Proof.
  intros Hq <-. unfold parent, name. apply app_removelast_last.
  intros ->. now apply Hq.
Qed.

Lemma canon_app (f : FS) (p : path) (c : str) :
  canon f (p ++ [c]) = walk f (canon f p) c.
Proof. unfold canon. now rewrite fold_left_app. Qed.

(** An entry can be reached only through a directory. *)
Lemma stat_child_dir (f : FS) (p : path) (c : str) (k : kind) :
  stat f (p ++ [c]) = Some k -> is_dir f p = true.
Proof.
  unfold stat, is_dir, stat. rewrite canon_app. unfold walk.
  destruct (canon f p) as [d|]; [|discriminate].
  destruct (kind_of f d) as [[|]|]; try discriminate. reflexivity.
Qed.

Lemma is_file_not_dir (f : FS) (p : path) : is_file f p = true -> is_dir f p = false.
Proof. unfold is_file, is_dir. now destruct (stat f p) as [[|]|]. Qed.

(** ** What the library calls do to the world *)

Lemma os_rename_raise (src dst : path) (w w' : World) (e : exn) :
  os_rename src dst w = (Raise e, w') -> w' = w.
Proof.
  unfold os_rename, bind, get_fs, put_fs, raise, ret.
  break_match; intros H; try discriminate H; now injection H as _ <-.
Qed.

Lemma shutil_move_raise (src dst : path) (w w' : World) (e : exn) :
  shutil_move src dst w = (Raise e, w') -> w' = w.
Proof.
  unfold shutil_move, bind, get_fs at 1. simpl.
  break_match; try apply os_rename_raise.
  unfold raise. intros H. now injection H as _ <-.
Qed.

Lemma iterdir_run (d : path) (w : World) :
  iterdir d w =
  (if is_dir (fs w) d
   then Ret (map (fun n => d ++ [n])
                 (children (fs w) (match canon (fs w) d with Some q => q | None => [] end)))
   else Raise OSError, w).
Proof.
  unfold iterdir, is_dir, stat, bind, get_fs, raise, ret.
  destruct (canon (fs w) d) as [q|]; [|reflexivity].
  now destruct (kind_of (fs w) q) as [[|]|].
Qed.

Lemma listing_child (f : FS) (d e : path) :
  In e (listing f d) -> e = d ++ [name e].
Proof.
  unfold listing. rewrite in_map_iff. intros (n & <- & _). now rewrite name_app.
Qed.

(** ** The eligible files *)

Lemma files_to_process_run (home : path) (w : World) :
  files_to_process home w =
  (if is_dir (fs w) (BASE_FOLDER home)
   then Ret (filter (fun e => is_file (fs w) e && negb (should_ignore e))
                    (listing (fs w) (BASE_FOLDER home)))
   else Raise OSError, w).
Proof.
  unfold files_to_process, bind. rewrite iterdir_run.
  now destruct (is_dir (fs w) (BASE_FOLDER home)).
Qed.

Lemma files_to_process_eligible (home : path) (w w' : World) (files : list path) :
  files_to_process home w = (Ret files, w') ->
  w' = w /\
  forall f, In f files ->
            is_file (fs w) f = true /\ should_ignore f = false /\
            f = BASE_FOLDER home ++ [name f].
Proof.
  rewrite files_to_process_run.
  destruct (is_dir (fs w) (BASE_FOLDER home)); intros H; [|discriminate H].
  injection H as <- <-. split; [reflexivity|].
  intros f Hf. apply filter_In in Hf as [Hl Hf].
  apply andb_true_iff in Hf as [H1 H2]. apply negb_true_iff in H2.
  repeat split; try assumption. now apply listing_child in Hl.
Qed.

(** ** Live mode *)

Lemma classify_single_file_run (home : path) (g : request -> str)
      (file_path : path) (w : World) :
  is_dir (fs w) (BASE_FOLDER home) = true ->
  classify_single_file home g file_path w =
  (Ret (folder_choice (raw_result (g (live_request home w file_path)))),
   mkWorld (fs w) (trace w ++ [Asked (live_request home w file_path)])).
Proof.
  intros Hd. unfold classify_single_file, bind. rewrite iterdir_run, Hd.
  reflexivity.
Qed.

Lemma eligible_root_dir (home : path) (w : World) (file_path : path) :
  eligible home w file_path -> is_dir (fs w) (BASE_FOLDER home) = true.
Proof.
  intros (H1 & H2 & _).
  apply child_of_parent in H2; [|apply BASE_FOLDER_not_root].
  unfold is_file in H1. destruct (stat (fs w) file_path) as [k|] eqn:E; [|discriminate].
  rewrite H2 in E. now apply stat_child_dir in E.
Qed.

(** On the file systems modelled here [handle_new_file] always returns.
    Either it does nothing at all, or
    the file is eligible and the provider is asked once; after that the
    file is moved only when a non-empty folder name was chosen, the
    target exists and [shutil.move] succeeded; otherwise the file system
    is as before. *)
Lemma handle_new_file_run (home : path) (g : request -> str)
      (file_path : path) (w : World) :
  exists w', handle_new_file home g file_path w = (Ret tt, w') /\
    ((~ eligible home w file_path /\ w' = w) \/
     (eligible home w file_path /\
      let asked := mkWorld (fs w) (trace w ++ [Asked (live_request home w file_path)]) in
      (w' = asked \/
       exists (folder : str) (moved : World),
         folder_choice (raw_result (g (live_request home w file_path))) = Some folder /\
         folder <> [] /\
         exists_ (fs w) (joinpath (BASE_FOLDER home) folder) = true /\
         shutil_move file_path
                     (joinpath (joinpath (BASE_FOLDER home) folder) (name file_path))
                     asked = (Ret tt, moved) /\
         w' = mkWorld (fs moved) (trace asked ++ [Moved file_path folder])))).
Proof.
  unfold handle_new_file, bind at 1, get_fs at 1. simpl.
  destruct (is_file (fs w) file_path) eqn:E1; simpl;
    [|exists w; split; [reflexivity|]; left; split; [|reflexivity];
      intros (H & _); congruence].
  destruct (path_eqb (parent file_path) (BASE_FOLDER home)) eqn:E2; simpl;
    [|exists w; split; [reflexivity|]; left; split; [|reflexivity];
      intros (_ & H & _); apply path_eqb_eq in H; congruence].
  apply path_eqb_eq in E2.
  destruct (should_ignore file_path) eqn:E3; simpl;
    [exists w; split; [reflexivity|]; left; split; [|reflexivity];
     intros (_ & _ & H); congruence|].
  assert (He : eligible home w file_path) by (repeat split; assumption).
  unfold bind at 1.
  rewrite classify_single_file_run by (eapply eligible_root_dir; eassumption).
  set (asked := mkWorld (fs w) (trace w ++ [Asked (live_request home w file_path)])).
  destruct (folder_choice _) as [[|c folder]|] eqn:Ec;
    try (exists asked; split; [reflexivity|]; right; split; [assumption|]; now left).
  unfold bind at 1, get_fs at 1. simpl.
  destruct (exists_ (fs w) (joinpath (BASE_FOLDER home) (c :: folder))) eqn:Ex; simpl;
    [|exists asked; split; [reflexivity|]; right; split; [assumption|]; now left].
  unfold try_except, bind.
  destruct (shutil_move file_path _ asked) as [[[]|e] moved] eqn:Em.
  - eexists. split; [reflexivity|]. right. split; [assumption|]. right.
    exists (c :: folder), moved. repeat split; try assumption; try discriminate.
    unfold emit. simpl. f_equal. f_equal.
    apply shutil_move_trace in Em. exact Em.
  - apply shutil_move_raise in Em. subst moved.
    exists asked. split; [reflexivity|]. right. split; [assumption|]. now left.
Qed.

(** ** The events of [apply_moves] *)

Lemma outcome_source (folder : str) (files : list path) (evs : list event) (e : event) :
  Forall2 (outcome_of folder) files evs -> In e evs ->
  exists f, In f files /\ outcome_of folder f e.
Proof.
  induction 1 as [|f e' files evs Ho _ IH]; simpl; [tauto|].
  intros [<-|Hin].
  - exists f. split; [now left | assumption].
  - destruct (IH Hin) as (f' & H1 & H2). exists f'. split; [now right | assumption].
Qed.

Lemma plan_event_cons (base : path) (x : str * list path)
      (plan : list (str * list path)) (e : event) :
  plan_event base plan e -> plan_event base (x :: plan) e.
Proof.
  intros [(k & H1 & H2)|(k & m & f & H1 & H2 & H3)].
  - left. exists k. split; [now right | assumption].
  - right. exists k, m, f. split; [now right | now split].
Qed.

Lemma plan_event_app (base : path) (plan rest : list (str * list path)) (e : event) :
  plan_event base plan e -> plan_event base (plan ++ rest) e.
Proof.
  intros [(k & H1 & H2)|(k & m & f & H1 & H2 & H3)].
  - left. exists k. split; [|assumption]. unfold keys. rewrite map_app.
    apply in_or_app. now left.
  - right. exists k, m, f. split; [apply in_or_app; now left | now split].
Qed.

Lemma plan_trace_events (base : path) (plan : list (str * list path))
      (t : list event) (e : event) :
  plan_trace base plan t -> In e t -> plan_event base plan e.
Proof.
  induction 1 as [|folder files rest evs t Hev _ IH]; simpl; [tauto|].
  intros [<-|Hin].
  - left. exists folder. split; [now left | reflexivity].
  - apply in_app_or in Hin as [Hin|Hin].
    + destruct (outcome_source e Hev Hin) as (f & H1 & H2).
      right. exists folder, files, f. split; [now left | now split].
    + apply plan_event_cons. now apply IH.
Qed.

Lemma apply_moves_events (home : path) (plan : list (str * list path))
      (w w' : World) (r : result unit) :
  apply_moves home plan w = (r, w') ->
  exists t, trace w' = trace w ++ t /\
            forall e, In e t -> plan_event (BASE_FOLDER home) plan e.
Proof.
  intros Hrun.
  destruct (apply_moves_run home plan w) as (r' & w1 & t & Hrun' & Ht & Hshape).
  rewrite Hrun in Hrun'. injection Hrun' as <- <-.
  exists t. split; [assumption|]. intros e Hin.
  destruct Hshape as [[_ H]|(_ & done & folder & files & rest & t0 & -> & H & ->)].
  - eapply plan_trace_events; eassumption.
  - apply in_app_or in Hin as [Hin|[<-|[]]].
    + apply plan_event_app. eapply plan_trace_events; eassumption.
    + left. exists folder. split; [|reflexivity].
      unfold keys. rewrite map_app. apply in_or_app. right. now left.
Qed.

(** ** The initial scan *)

(** The initial scan either fails to list the root, or finds nothing
    and stops, or asks the provider once about the eligible files and
    applies the plan. *)
Lemma initial_scan_run (home : path) (g : request -> str) (w : World) :
  let files := filter (fun e => is_file (fs w) e && negb (should_ignore e))
                      (listing (fs w) (BASE_FOLDER home)) in
  let asked := mkWorld (fs w) (trace w ++ [Asked (BatchRequest (map name files) MAX_FOLDERS)]) in
  initial_scan home g w =
  if is_dir (fs w) (BASE_FOLDER home) then
    match files with
    | [] => (Ret tt, w)
    | _ =>
        match raw_result (g (BatchRequest (map name files) MAX_FOLDERS)) with
        | None => apply_moves home [] asked
        | Some data =>
            match materialize data files with
            | Ret plan => apply_moves home plan asked
            | Raise e => (Raise e, asked)
            end
        end
    end
  else (Raise OSError, w).
Proof.
  intros files asked. unfold initial_scan, bind at 1.
  rewrite files_to_process_run.
  destruct (is_dir (fs w) (BASE_FOLDER home)); [|reflexivity].
  fold files. destruct files as [|f files'] eqn:Ef; [reflexivity|].
  unfold bind. rewrite batch_classify_run. fold asked.
  destruct (raw_result _) as [data|]; [|reflexivity].
  now destruct (materialize data (f :: files')) as [plan|e].
Qed.

(** ** Ignored files *)

Lemma should_ignore_name (a b : path) :
  name a = name b -> should_ignore a = should_ignore b.
Proof. unfold should_ignore. now intros ->. Qed.

Lemma materialize_members (data : json) (files : list path)
      (plan : list (str * list path)) (folder : str) (members : list path) (f : path) :
  materialize data files = Ret plan ->
  In (folder, members) plan -> In f members -> In f files.
Proof.
  intros H Hin Hf. apply materialize_ok in H as (items & _ & _ & Hall).
  rewrite Forall_forall in Hall. destruct (Hall _ Hin) as (_ & Hok & _).
  now apply Hok.
Qed.

Lemma plan_event_spares (base : path) (files : list path)
      (plan : list (str * list path)) (p : path) (e : event) :
  (forall folder members f, In (folder, members) plan -> In f members -> In f files) ->
  (forall f, In f files -> should_ignore f = false) ->
  should_ignore p = true ->
  plan_event base plan e -> ~ event_involves p e.
Proof.
  intros Hsub Hfiles Hp [(k & _ & ->)|(k & m & f & H1 & H2 & [-> | ->])];
    simpl; [tauto| |]; intros ->;
    specialize (Hfiles _ (Hsub _ _ _ H1 H2)); congruence.
Qed.

(** C6. A file [p] whose name starts with a dot or is in the ignore set
    is left alone by both modes.  In the initial scan its name is not in
    the list sent to the provider and no move has it as its source.  In
    live mode, handling [p] itself does nothing at all; and while any
    other file is handled, [p] is neither the file the request is about
    nor the source of the move, and, being a plain file of the root, it
    is not among the folder names of the request. *)
Theorem ignored_files_left_alone
        (home : path) (g : request -> str) (p : path) (w : World) :
  should_ignore p = true ->
  (forall r w', initial_scan home g w = (r, w') ->
      exists t, trace w' = trace w ++ t /\
                forall e, In e t -> ~ event_involves p e) /\
  handle_new_file home g p w = (Ret tt, w) /\
  (forall q r w', handle_new_file home g q w = (r, w') ->
      exists t, trace w' = trace w ++ t /\
                (forall e, In e t -> ~ event_involves p e) /\
                (forall folders n,
                    In (Asked (LiveRequest folders n)) t ->
                    is_file (fs w) p = true -> parent p = BASE_FOLDER home ->
                    ~ In (name p) folders)).
Proof.
  intros Hp. split; [|split].
  - intros r w'. rewrite initial_scan_run.
    set (files := filter _ _).
    set (req := BatchRequest (map name files) MAX_FOLDERS).
    assert (Hfiles : forall f, In f files -> should_ignore f = false).
    { intros f Hf. apply filter_In in Hf as [_ Hf].
      apply andb_true_iff in Hf as [_ Hf]. now apply negb_true_iff in Hf. }
    assert (Hreq : ~ event_involves p (Asked req)).
    { simpl. intros Hin. apply in_map_iff in Hin as (f & Hn & Hf).
      apply Hfiles in Hf. rewrite (should_ignore_name _ _ Hn) in Hf. congruence. }
    assert (Hmoves : forall plan r0 w0,
               (forall folder members f,
                   In (folder, members) plan -> In f members -> In f files) ->
               apply_moves home plan
                           (mkWorld (fs w) (trace w ++ [Asked req])) = (r0, w0) ->
               exists t, trace w0 = trace w ++ t /\
                         forall e, In e t -> ~ event_involves p e).
    { intros plan r0 w0 Hsub Hrun.
      apply apply_moves_events in Hrun as (t & Ht & Hev). simpl in Ht.
      exists (Asked req :: t). split; [now rewrite Ht, <- app_assoc|].
      intros e [<-|Hin]; [assumption|].
      eapply plan_event_spares; eauto. }
    destruct (is_dir (fs w) (BASE_FOLDER home));
      [|intros H; injection H as _ <-; exists []; rewrite app_nil_r; now split].
    destruct files as [|f0 files'] eqn:Ef;
      [intros H; injection H as _ <-; exists []; rewrite app_nil_r; now split|].
    destruct (raw_result (g req)) as [data|].
    + destruct (materialize data (f0 :: files')) as [plan|e] eqn:Em.
      * apply Hmoves. intros folder members f H1 H2.
        eapply materialize_members; eassumption.
      * intros H. injection H as _ <-. exists [Asked req]. split; [reflexivity|].
        intros e' [<-|[]]. assumption.
    + apply Hmoves. intros folder members f [].
  - destruct (handle_new_file_run home g p w) as (w' & Hrun & [[_ ->]|[He _]]).
    + assumption.
    + destruct He as (_ & _ & He). congruence.
  - intros q r w' Hrun.
    destruct (handle_new_file_run home g q w) as (w1 & Hrun' & Hcases).
    rewrite Hrun in Hrun'. injection Hrun' as -> ->.
    destruct Hcases as [[_ ->]|[He Hcases]].
    { exists []. rewrite app_nil_r. split; [reflexivity|].
      split; [intros ? [] | intros ? ? []]. }
    assert (Hreq : ~ event_involves p (Asked (live_request home w q))).
    { simpl. intros Hn. destruct He as (_ & _ & He).
      rewrite (should_ignore_name _ _ Hn) in He. congruence. }
    assert (Hfolders : forall folders n,
               Asked (live_request home w q) = Asked (LiveRequest folders n) ->
               is_file (fs w) p = true -> parent p = BASE_FOLDER home ->
               ~ In (name p) folders).
    { intros folders n E Hf Hpar Hin. injection E as <- _.
      apply in_map_iff in Hin as (e & Hn & Hin).
      apply filter_In in Hin as [Hl Hd]. apply listing_child in Hl.
      apply child_of_parent in Hpar; [|apply BASE_FOLDER_not_root].
      rewrite Hn, <- Hpar in Hl. subst e.
      apply is_file_not_dir in Hf. congruence. }
    simpl in Hcases.
    destruct Hcases as [->|(folder & moved & _ & _ & _ & _ & ->)]; simpl.
    + exists [Asked (live_request home w q)]. split; [reflexivity|]. split.
      * intros e [<-|[]]. assumption.
      * intros folders n [E|[]]. now apply (Hfolders folders n).
    + exists [Asked (live_request home w q); Moved q folder].
      split; [now rewrite <- app_assoc|]. split.
      * intros e [<-|[<-|[]]]; [assumption|]. simpl. intros ->.
        destruct He as (_ & _ & He). congruence.
      * intros folders n [E|[E|[]]]; [now apply (Hfolders folders n) | discriminate E].
Qed.

(** ** A failed move that ends the run *)

(** C7 (the failing input). The candidates are [notes] and [todo.txt];
    the provider sends [notes] to the existing folder [Archive] and
    [todo.txt] to a new folder [notes].  The move of [notes] fails
    ([Archive/notes/notes] is taken) and is reported; the file therefore
    stays in the root, [mkdir] of the folder [notes] meets it and raises
    out of [apply_moves], and the move of [todo.txt] is never tried:
    the file system is the one the run started from. *)
Theorem apply_moves_failed_move_ends_the_run :
  files_to_process sample_home clash_world = (Ret clash_files, clash_world) /\
  batch_classify (fun _ => clash_answer) clash_files clash_world =
  (Ret clash_plan, mkWorld (fs clash_world) [Asked clash_request]) /\
  apply_moves sample_home clash_plan (mkWorld (fs clash_world) [Asked clash_request]) =
  (Raise OSError,
   mkWorld (fs clash_world)
           [Asked clash_request;
            Mkdir (sample_root ++ [py "Archive"]);
            MoveFailed (sample_root ++ [py "notes"]) (py "Archive");
            Mkdir (sample_root ++ [py "notes"])]).
Proof. repeat split; vm_compute; reflexivity. Qed.

(** The same plan in a root where [Archive] is empty: the move of
    [notes] succeeds, the name is free for the folder, and [todo.txt]
    is moved. *)
Example apply_moves_same_plan_without_the_failure :
  apply_moves sample_home clash_plan
              (mkWorld (sample_dirs ++
                        [(sample_root ++ [py "Archive"], Dir);
                         (sample_root ++ [py "notes"], File);
                         (sample_root ++ [py "todo.txt"], File)]) [])
  = (Ret tt,
     mkWorld (sample_dirs ++
              [(sample_root ++ [py "Archive"], Dir);
               (sample_root ++ [py "Archive"; py "notes"], File);
               (sample_root ++ [py "notes"], Dir);
               (sample_root ++ [py "notes"; py "todo.txt"], File)])
             [Mkdir (sample_root ++ [py "Archive"]);
              Moved (sample_root ++ [py "notes"]) (py "Archive");
              Mkdir (sample_root ++ [py "notes"]);
              Moved (sample_root ++ [py "todo.txt"]) (py "notes")]).
Proof. vm_compute. reflexivity. Qed.

(** ** Nothing to do *)

(** C8. When no eligible file lies directly in the watched root at
    start-up, the batch phase stops at once: it returns normally, the
    provider has not been asked and the file system is untouched (the
    world is the one it started from). *)
Theorem initial_scan_nothing_to_do (home : path) (g : request -> str) (w : World) :
  fst (files_to_process home w) = Ret [] ->
  initial_scan home g w = (Ret tt, w).
Proof.
  intros H. unfold initial_scan, bind.
  destruct (files_to_process home w) as [r w'] eqn:E. simpl in H. subst r.
  apply files_to_process_eligible in E as [-> _]. reflexivity.
Qed.

(** ** Code fences *)

Lemma replace_from_skip (old new : str) (k : nat) (s : str) :
  replace_from old new k s = replace_from old new 0 (skipn k s).
Proof.
  revert k. induction s as [|c s IH]; intros [|k]; try reflexivity.
  cbn [replace_from skipn]. apply IH.
Qed.

Lemma replace_from_nomatch (old new : str) (c : char) (s : str) :
  startswith (c :: s) old = false ->
  replace_from old new 0 (c :: s) = c :: replace_from old new 0 s.
Proof. intros H. cbn [replace_from]. now rewrite H. Qed.

Lemma replace_from_match (old new : str) (c : char) (s : str) :
  startswith (c :: s) old = true ->
  replace_from old new 0 (c :: s)
  = new ++ replace_from old new 0 (skipn (length old - 1) s).
Proof.
  intros H. cbn [replace_from]. rewrite H. now rewrite replace_from_skip.
Qed.

Lemma str_contains_cons (c : char) (s sub : str) :
  str_contains (c :: s) sub = false ->
  startswith (c :: s) sub = false /\ str_contains s sub = false.
Proof. cbn [str_contains]. apply orb_false_iff. Qed.

(** Where [old] does not occur, [replace] changes nothing. *)
Lemma replace_from_absent (old new s : str) :
  str_contains s old = false -> replace_from old new 0 s = s.
Proof.
  induction s as [|c s IH]; intros H; [reflexivity|].
  apply str_contains_cons in H as [H1 H2].
  rewrite replace_from_nomatch by assumption. now rewrite IH.
Qed.

Lemma startswith_app_prefix (s a b : str) :
  startswith s (a ++ b) = true -> startswith s a = true.
Proof.
  revert s. induction a as [|x a IH]; intros s; [reflexivity|].
  destruct s as [|c s]; simpl; [discriminate|].
  intros H. apply andb_true_iff in H as [H1 H2]. rewrite H1. simpl. now apply IH.
Qed.

Lemma startswith_app_r (s t p : str) :
  startswith s p = true -> startswith (s ++ t) p = true.
Proof.
  revert s. induction p as [|x p IH]; intros s; [reflexivity|].
  destruct s as [|c s]; simpl; [discriminate|].
  intros H. apply andb_true_iff in H as [H1 H2]. rewrite H1. simpl. now apply IH.
Qed.

(** A fence marker cannot begin in the body and end after the line feed
    that follows it. *)
Lemma no_fence_across_newline (b t : str) :
  startswith b (py "```") = false ->
  startswith (b ++ nl ++ t) (py "```") = false.
Proof.
  destruct b as [|c1 [|c2 [|c3 b]]]; simpl; intros H.
  - reflexivity.
  - destruct (N.eqb c1 96); reflexivity.
  - destruct (N.eqb c1 96), (N.eqb c2 96); reflexivity.
  - exact H.
Qed.

Lemma replace_fence_body (body : str) :
  str_contains body (py "```") = false ->
  replace_from (py "```") [] 0 (body ++ nl ++ py "```") = body ++ nl.
Proof.
  induction body as [|c body IH]; intros H; [reflexivity|].
  apply str_contains_cons in H as [H1 H2].
  change ((c :: body) ++ nl ++ py "```") with (c :: (body ++ nl ++ py "```")).
  rewrite replace_from_nomatch.
  - now rewrite IH.
  - now apply (no_fence_across_newline (c :: body)).
Qed.

Lemma no_json_fence_in_body (body : str) :
  str_contains body (py "```") = false ->
  str_contains (body ++ nl ++ py "```") (py "```json") = false.
Proof.
  induction body as [|c body IH]; intros H; [reflexivity|].
  apply str_contains_cons in H as [H1 H2].
  change ((c :: body) ++ nl ++ py "```") with (c :: (body ++ nl ++ py "```")).
  cbn [str_contains]. rewrite (IH H2), orb_false_r.
  destruct (startswith _ (py "```json")) eqn:E; [|reflexivity].
  apply (startswith_app_prefix _ (py "```") (py "json")) in E.
  pose proof (no_fence_across_newline (c :: body) (py "```") H1) as E'.
  change ((c :: body) ++ nl ++ py "```") with (c :: (body ++ nl ++ py "```")) in E'.
  congruence.
Qed.

Lemma lstrip_space_app (ws s : str) :
  forallb isspace ws = true -> lstrip (ws ++ s) = lstrip s.
Proof.
  induction ws as [|c ws IH]; simpl; [reflexivity|].
  intros H. apply andb_true_iff in H as [-> H]. now apply IH.
Qed.

Lemma lstrip_all_space (ws : str) : forallb isspace ws = true -> lstrip ws = [].
Proof.
  intros H. rewrite <- (app_nil_r ws). now rewrite lstrip_space_app.
Qed.

Lemma lstrip_app (s t : str) :
  lstrip (s ++ t) = if forallb isspace s then lstrip t else lstrip s ++ t.
Proof.
  induction s as [|c s IH]; simpl; [reflexivity|].
  destruct (isspace c); simpl; [assumption | reflexivity].
Qed.

Lemma forallb_rev (A : Type) (f : A -> bool) (l : list A) :
  forallb f (rev l) = forallb f l.
Proof.
  induction l as [|x l IH]; simpl; [reflexivity|].
  rewrite forallb_app, IH. simpl. rewrite andb_true_r. apply andb_comm.
Qed.

Lemma rstrip_app_space (s ws : str) :
  forallb isspace ws = true -> rstrip (s ++ ws) = rstrip s.
Proof.
  intros H. unfold rstrip. rewrite rev_app_distr, lstrip_space_app; [reflexivity|].
  now rewrite forallb_rev.
Qed.

(** White space around a text does not survive [strip]. *)
Lemma strip_pad (ws1 s ws2 : str) :
  forallb isspace ws1 = true -> forallb isspace ws2 = true ->
  strip (ws1 ++ s ++ ws2) = strip s.
Proof.
  intros H1 H2. unfold strip. rewrite lstrip_space_app by assumption.
  rewrite lstrip_app. destruct (forallb isspace s) eqn:E.
  - now rewrite (lstrip_all_space ws2), (lstrip_all_space s).
  - now apply rstrip_app_space.
Qed.

Lemma strip_nonspace_ends (c : char) (s : str) (d : char) :
  isspace c = false -> isspace d = false ->
  strip (c :: s ++ [d]) = c :: s ++ [d].
Proof.
  intros Hc Hd. unfold strip. cbn [lstrip]. rewrite Hc.
  unfold rstrip. change (c :: s ++ [d]) with ((c :: s) ++ [d]).
  rewrite rev_app_distr. cbn [rev app lstrip]. rewrite Hd.
  change (d :: rev s ++ [c]) with ([d] ++ rev (c :: s)).
  now rewrite rev_app_distr, rev_involutive.
Qed.

(** [strip] keeps a part of the text, so what the text does not contain
    the stripped text does not contain either. *)
Lemma str_contains_lstrip (s sub : str) :
  str_contains s sub = false -> str_contains (lstrip s) sub = false.
Proof.
  induction s as [|c s IH]; intros H; [assumption|].
  cbn [lstrip]. destruct (isspace c); [|assumption].
  apply str_contains_cons in H as [_ H]. now apply IH.
Qed.

Lemma str_contains_app_l (s t sub : str) :
  str_contains (s ++ t) sub = false -> str_contains s sub = false.
Proof.
  induction s as [|c s IH]; intros H.
  - destruct sub as [|x sub]; [|reflexivity].
    destruct t; discriminate H.
  - change ((c :: s) ++ t) with (c :: (s ++ t)) in H.
    apply str_contains_cons in H as [H1 H2].
    cbn [str_contains]. rewrite (IH H2), orb_false_r.
    destruct (startswith (c :: s) sub) eqn:E; [|reflexivity].
    apply (startswith_app_r _ t) in E. simpl in E, H1. congruence.
Qed.

Lemma lstrip_suffix (s : str) : exists ws, s = ws ++ lstrip s.
Proof.
  induction s as [|c s [ws IH]]; [now exists []|].
  cbn [lstrip]. destruct (isspace c).
  - exists (c :: ws). simpl. now f_equal.
  - now exists [].
Qed.

Lemma rstrip_prefix (s : str) : exists ws, s = rstrip s ++ ws.
Proof.
  destruct (lstrip_suffix (rev s)) as [ws H]. exists (rev ws).
  unfold rstrip. rewrite <- rev_app_distr, <- H. now rewrite rev_involutive.
Qed.

Lemma str_contains_strip (s sub : str) :
  str_contains s sub = false -> str_contains (strip s) sub = false.
Proof.
  intros H. apply str_contains_lstrip in H. unfold strip.
  destruct (rstrip_prefix (lstrip s)) as [ws E]. rewrite E in H.
  now apply str_contains_app_l in H.
Qed.

Lemma unfence_plain (s : str) :
  str_contains s (py "```") = false -> unfence s = s.
Proof.
  intros H. unfold unfence.
  destruct s as [|c s]; [reflexivity|].
  apply str_contains_cons in H as [-> _]. reflexivity.
Qed.

(** What lines 100-101 and 190-191 leave of a fenced answer. *)
Lemma unfence_fenced (opening body : str) :
  opening = py "```json" \/ opening = py "```" ->
  str_contains body (py "```") = false ->
  unfence (fenced opening body) = strip body.
Proof.
  intros Ho Hb.
  assert (Hrest : replace (py "```") [] (nl ++ body ++ nl ++ py "```")
                  = nl ++ body ++ nl).
  { change (replace (py "```") [] (nl ++ body ++ nl ++ py "```"))
      with (replace_from (py "```") [] 0 (10%N :: (body ++ nl ++ py "```"))).
    rewrite replace_from_nomatch by reflexivity.
    rewrite replace_fence_body by assumption. reflexivity. }
  assert (Hjson : replace (py "```json") [] (nl ++ body ++ nl ++ py "```")
                  = nl ++ body ++ nl ++ py "```").
  { change (replace (py "```json") [] (nl ++ body ++ nl ++ py "```"))
      with (replace_from (py "```json") [] 0 (10%N :: (body ++ nl ++ py "```"))).
    apply replace_from_absent.
    change (nl ++ body ++ nl ++ py "```") with (10%N :: (body ++ nl ++ py "```")).
    cbn [str_contains].
    rewrite no_json_fence_in_body by assumption. reflexivity. }
  assert (Hstrip : strip (nl ++ body ++ nl) = strip body)
    by (apply strip_pad; reflexivity).
  unfold unfence, fenced.
  destruct Ho as [-> | ->].
  - change (startswith (py "```json" ++ nl ++ body ++ nl ++ py "```") (py "```"))
      with true. cbv iota.
    replace (replace (py "```json") [] (py "```json" ++ nl ++ body ++ nl ++ py "```"))
      with (replace (py "```json") [] (nl ++ body ++ nl ++ py "```")).
    + now rewrite Hjson, Hrest.
    + symmetry.
      change (replace (py "```json") [] (py "```json" ++ nl ++ body ++ nl ++ py "```"))
        with (replace_from (py "```json") [] 0
                (96%N :: py "``json" ++ nl ++ body ++ nl ++ py "```")).
      rewrite replace_from_match by reflexivity. reflexivity.
  - change (startswith (py "```" ++ nl ++ body ++ nl ++ py "```") (py "```"))
      with true. cbv iota.
    replace (replace (py "```json") [] (py "```" ++ nl ++ body ++ nl ++ py "```"))
      with (py "```" ++ nl ++ body ++ nl ++ py "```").
    + change (replace (py "```") [] (py "```" ++ nl ++ body ++ nl ++ py "```"))
        with (replace_from (py "```") [] 0
                (96%N :: py "``" ++ nl ++ body ++ nl ++ py "```")).
      rewrite replace_from_match by reflexivity.
      change (replace_from (py "```") [] 0
                (skipn (length (py "```") - 1)
                       (py "``" ++ nl ++ body ++ nl ++ py "```")))
        with (replace (py "```") [] (nl ++ body ++ nl ++ py "```")).
      now rewrite Hrest.
    + symmetry.
      change (replace (py "```json") [] (py "```" ++ nl ++ body ++ nl ++ py "```"))
        with (replace_from (py "```json") [] 0
                (96%N :: 96%N :: 96%N :: 10%N :: (body ++ nl ++ py "```"))).
      apply replace_from_absent.
      change (py "```" ++ nl ++ body ++ nl ++ py "```")
        with (96%N :: 96%N :: 96%N :: 10%N :: (body ++ nl ++ py "```")).
      cbn [str_contains].
      rewrite no_json_fence_in_body by assumption. reflexivity.
Qed.

Lemma strip_fenced (ws1 opening body ws2 : str) :
  opening = py "```json" \/ opening = py "```" ->
  forallb isspace ws1 = true -> forallb isspace ws2 = true ->
  strip (ws1 ++ fenced opening body ++ ws2) = fenced opening body.
Proof.
  intros Ho H1 H2. rewrite strip_pad by assumption.
  unfold fenced.
  replace (opening ++ nl ++ body ++ nl ++ py "```")
    with (96%N :: (skipn 1 opening ++ nl ++ body ++ nl ++ py "``") ++ [96%N]).
  - now apply strip_nonspace_ends.
  - destruct Ho as [-> | ->]; simpl; rewrite <- !app_assoc; reflexivity.
Qed.

(** C9 (as stated, refuted). A fenced answer is not always decoded like
    the bare answer: the markers are removed everywhere, also inside the
    JSON text.  The bare answer [{"folder": "a```b"}] names the folder
    [a```b]; the same answer inside a code fence names the folder [ab]. *)
Lemma fence_removal_reaches_into_the_answer :
  raw_result (folder_answer "a```b")
  = Some (JObj [(py "folder", JStr (py "a```b"))]) /\
  raw_result (fenced (py "```json") (folder_answer "a```b"))
  = Some (JObj [(py "folder", JStr (py "ab"))]) /\
  folder_choice (raw_result (folder_answer "a```b"))
  <> folder_choice (raw_result (fenced (py "```json") (folder_answer "a```b"))).
Proof.
  split; [|split]; try (vm_compute; reflexivity).
  vm_compute. discriminate.
Qed.

(** C9 (amended). An answer that contains no triple backtick and is
    wrapped in a code fence (an opening marker with or without [json],
    the answer on lines of its own, a closing marker, white space
    around) reaches the decoder as the bare answer does, in batch and in
    live mode alike; so both modes return what they return for the bare
    answer. *)
Theorem fenced_answer_parses_like_bare_answer
        (home : path) (opening body ws1 ws2 : str) :
  opening = py "```json" \/ opening = py "```" ->
  str_contains body (py "```") = false ->
  forallb isspace ws1 = true -> forallb isspace ws2 = true ->
  let wrapped := ws1 ++ fenced opening body ++ ws2 in
  unfence (strip wrapped) = strip body /\
  unfence (strip body) = strip body /\
  raw_result wrapped = raw_result body /\
  (forall files w,
      batch_classify (fun _ => wrapped) files w
      = batch_classify (fun _ => body) files w) /\
  (forall file_path w,
      classify_single_file home (fun _ => wrapped) file_path w
      = classify_single_file home (fun _ => body) file_path w).
Proof.
  intros Ho Hb H1 H2 wrapped.
  assert (E1 : unfence (strip wrapped) = strip body).
  { unfold wrapped. rewrite strip_fenced by assumption.
    now apply unfence_fenced. }
  assert (E2 : unfence (strip body) = strip body).
  { apply unfence_plain. now apply str_contains_strip. }
  assert (E3 : raw_result wrapped = raw_result body).
  { unfold raw_result. now rewrite E1, E2. }
  repeat split; try assumption.
  - intros files w. rewrite !batch_classify_run. now rewrite E3.
  - intros file_path w.
    unfold classify_single_file, bind, ask, emit, ret. rewrite !iterdir_run.
    destruct (is_dir (fs w) (BASE_FOLDER home)); [|reflexivity].
    simpl. fold (raw_result wrapped). fold (raw_result body). now rewrite E3.
Qed.

(** ** Malformed and misshapen answers *)

Lemma batch_classify_malformed (g : request -> str) (files : list path) (w : World) :
  raw_result (g (BatchRequest (map name files) MAX_FOLDERS)) = None ->
  batch_classify g files w =
  (Ret [], mkWorld (fs w) (trace w ++ [Asked (BatchRequest (map name files) MAX_FOLDERS)])).
Proof. intros H. now rewrite batch_classify_run, H. Qed.

(** With an empty plan nothing is created or moved. *)
Lemma initial_scan_malformed (home : path) (g : request -> str) (w : World) :
  (forall r, raw_result (g r) = None) ->
  exists r w', initial_scan home g w = (r, w') /\ fs w' = fs w.
Proof.
  intros H. rewrite initial_scan_run.
  destruct (is_dir (fs w) (BASE_FOLDER home)); [|now eexists _, _].
  destruct (filter _ _); [now eexists _, _|].
  rewrite H. now eexists _, _.
Qed.

(** In live mode everything that goes wrong with the answer between
    [json.loads] and [sanitize_folder] gives [None]. *)
Lemma folder_choice_not_a_dict (parsed : option json) :
  (forall members, parsed <> Some (JObj members)) -> folder_choice parsed = None.
Proof.
  destruct parsed as [[]|]; intros H; try reflexivity.
  now destruct (H members).
Qed.

Lemma handle_new_file_no_choice (home : path) (g : request -> str)
      (file_path : path) (w : World) :
  (forall r, folder_choice (raw_result (g r)) = None) ->
  exists w', handle_new_file home g file_path w = (Ret tt, w') /\ fs w' = fs w.
Proof.
  intros H.
  destruct (handle_new_file_run home g file_path w)
    as (w' & Hrun & [[_ ->]|[_ [->|(folder & moved & Hc & _)]]]);
    try (eexists; split; [eassumption | reflexivity]).
  rewrite H in Hc. discriminate.
Qed.

(** C2 (the failing input). The answer [[]] is well-formed JSON but not
    a dict: [data.items()] is outside the [try] of [batch_classify], so
    the call raises [AttributeError] instead of returning an empty plan,
    and the initial scan is aborted by it.  A dict whose value is not a
    container, as in [{"A": 5}], raises [TypeError] at
    [f.name in filenames] in the same way.  Live mode, whose [try]
    covers the use of the decoded value, returns [None] for the same
    answer. *)
Theorem batch_classify_raises_on_json_list (files : list path) (w : World) :
  batch_classify (fun _ => py "[]") files w =
  (Raise AttributeError,
   mkWorld (fs w) (trace w ++ [Asked (BatchRequest (map name files) MAX_FOLDERS)])) /\
  initial_scan sample_home (fun _ => py "[]") lonely_world =
  (Raise AttributeError,
   mkWorld (fs lonely_world) [Asked (BatchRequest [py "report.pdf"] MAX_FOLDERS)]) /\
  (forall f,
      batch_classify (fun _ => py ("{" ++ dq ++ "A" ++ dq ++ ": 5}")) (f :: files) w =
      (Raise TypeError,
       mkWorld (fs w)
               (trace w ++ [Asked (BatchRequest (map name (f :: files)) MAX_FOLDERS)]))) /\
  folder_choice (raw_result (py "[]")) = None.
Proof.
  split; [|split; [|split]].
  - rewrite batch_classify_run. reflexivity.
  - vm_compute. reflexivity.
  - intros f. rewrite batch_classify_run. reflexivity.
  - reflexivity.
Qed.

(** ** Live mode never makes a directory *)

Lemma lookup_fs_set (f : FS) (d p : path) (k : kind) :
  lookup (fs_set f d k) p = if path_eqb d p then Some k else lookup f p.
Proof.
  induction f as [|[q k'] f IH]; simpl.
  - reflexivity.
  - destruct (path_eqb q d) eqn:E; simpl.
    + apply path_eqb_eq in E. subst q. now destruct (path_eqb d p).
    + rewrite IH. destruct (path_eqb q p) eqn:E'; [|reflexivity].
      apply path_eqb_eq in E'. subst q.
      destruct (path_eqb d p) eqn:E''; [|reflexivity].
      apply path_eqb_eq in E''. subst d. now rewrite path_eqb_refl in E.
Qed.

Lemma lookup_fs_remove_Some (f : FS) (s p : path) (k : kind) :
  lookup (fs_remove f s) p = Some k -> lookup f p = Some k.
Proof.
  induction f as [|[q k'] f IH]; simpl; [discriminate|].
  destruct (path_eqb q s) eqn:E; simpl.
  - intros H. specialize (IH H). destruct (path_eqb q p) eqn:E'; [|assumption].
    apply path_eqb_eq in E, E'. subst.
    clear -H. exfalso. revert H. induction f as [|[q k''] f IH]; simpl; [discriminate|].
    destruct (path_eqb q p) eqn:E; simpl; [assumption|]. now rewrite E.
  - destruct (path_eqb q p); [trivial | assumption].
Qed.

(** Renaming a plain file makes no directory. *)
Lemma os_rename_file_dirs (src dst : path) (w w' : World) (r : result unit) (p : path) :
  is_file (fs w) src = true ->
  os_rename src dst w = (r, w') ->
  lookup (fs w') p = Some Dir -> lookup (fs w) p = Some Dir.
Proof.
  unfold is_file, stat, os_rename, bind, get_fs, put_fs, raise, ret.
  break_match; intros Hf H; try discriminate Hf;
    injection H as _ <-; simpl; trivial;
    rewrite lookup_fs_set; destruct (path_eqb _ p); try discriminate;
    apply lookup_fs_remove_Some.
Qed.

Lemma shutil_move_file_dirs (src dst : path) (w w' : World) (r : result unit) (p : path) :
  is_file (fs w) src = true ->
  shutil_move src dst w = (r, w') ->
  lookup (fs w') p = Some Dir -> lookup (fs w) p = Some Dir.
Proof.
  intros Hf. unfold shutil_move, bind, get_fs at 1. simpl.
  break_match; try (now apply os_rename_file_dirs).
  unfold raise. intros H. now injection H as _ <-.
Qed.

(** On the file systems modelled here [handle_new_file] always
    returns; it never calls [mkdir], no
    directory appears in the file system, and the only file it can move
    is the one it was called for, into a target that existed when the
    decision was taken. *)
Lemma handle_new_file_makes_no_directory (home : path) (g : request -> str)
      (file_path : path) (w : World) :
  exists w', handle_new_file home g file_path w = (Ret tt, w') /\
             (forall p, lookup (fs w') p = Some Dir -> lookup (fs w) p = Some Dir) /\
             (forall target, In (Mkdir target) (trace w') -> In (Mkdir target) (trace w)) /\
             (forall f folder,
                 In (Moved f folder) (trace w') -> ~ In (Moved f folder) (trace w) ->
                 f = file_path /\
                 exists_ (fs w) (joinpath (BASE_FOLDER home) folder) = true).
Proof.
  destruct (handle_new_file_run home g file_path w)
    as (w' & Hrun & [[_ ->]|[He [->|(folder & moved & Hc & Hne & Hex & Hmv & ->)]]]);
    exists w' || eexists; (split; [eassumption|]); simpl.
  - repeat split; try tauto.
  - split; [tauto|]. split.
    + intros target Hin. apply in_app_or in Hin as [Hin|[E|[]]]; [assumption | discriminate].
    + intros f folder Hin Hn. apply in_app_or in Hin as [Hin|[E|[]]]; [tauto | discriminate].
  - split; [|split].
    + intros p Hp.
      set (asked := mkWorld (fs w) _) in Hmv.
      change (lookup (fs asked) p = Some Dir).
      eapply shutil_move_file_dirs; [apply He | exact Hmv | exact Hp].
    + intros target Hin.
      apply in_app_or in Hin as [Hin|[E|[]]]; [|discriminate].
      apply in_app_or in Hin as [Hin|[E|[]]]; [assumption | discriminate].
    + intros f k Hin Hn.
      apply in_app_or in Hin as [Hin|[E|[]]].
      * apply in_app_or in Hin as [Hin|[E|[]]]; [tauto | discriminate].
      * injection E as <- <-. now split.
Qed.

(** C1 (the failing input). The watched root holds one file and no
    folder, and the provider answers [{"folder": ".."}].  The name
    survives [sanitize_folder], the target [root/..] exists, and the
    file is moved out of the root into its parent directory: the outcome
    is a move, not a skip. *)
Theorem handle_new_file_leaves_root_without_folders :
  filter (is_dir (fs lonely_world)) (listing (fs lonely_world) sample_root) = [] /\
  handle_new_file sample_home (fun _ => folder_answer "..")
                  (sample_root ++ [py "report.pdf"]) lonely_world =
  (Ret tt,
   mkWorld (sample_dirs ++ [(sample_home ++ [py "Projects"; py "report.pdf"], File)])
           [Asked (LiveRequest [] (py "report.pdf"));
            Moved (sample_root ++ [py "report.pdf"]) (py "..")]).
Proof. split; vm_compute; reflexivity. Qed.

(** ** The theorems at work on sample worlds *)

Lemma sample_batch_run :
  batch_classify (fun _ => batch_answer) sample_files batch_world
  = (Ret sample_plan, mkWorld (fs batch_world) [Asked batch_request]).
Proof. vm_compute. reflexivity. Defined.

Lemma batch_classify_drops_unknown_names_witness :
  batch_classify (fun _ => batch_answer) sample_files batch_world
  = (Ret sample_plan, mkWorld (fs batch_world) [Asked batch_request]) /\
  In (py "Receipts",
      [sample_root ++ [py "invoice1.pdf"]; sample_root ++ [py "invoice2.pdf"]])
     sample_plan /\
  ((forall f,
       In f [sample_root ++ [py "invoice1.pdf"]; sample_root ++ [py "invoice2.pdf"]] ->
       In f sample_files) /\
   (forall n,
       ~ In n (map name sample_files) ->
       ~ In n (map name [sample_root ++ [py "invoice1.pdf"];
                         sample_root ++ [py "invoice2.pdf"]]))).
Proof.
  split; [exact sample_batch_run|]. split; [left; reflexivity|].
  apply (batch_classify_drops_unknown_names
           (fun _ => batch_answer) sample_files batch_world sample_batch_run
           (py "Receipts")).
  left. reflexivity.
Defined.

Lemma batch_classify_respects_ceiling_witness :
  batch_classify (fun _ => batch_answer) sample_files batch_world
  = (Ret sample_plan, mkWorld (fs batch_world) [Asked batch_request]) /\
  (forall items,
      raw_result batch_answer = Some (JObj items) ->
      distinct (keys items) <= MAX_FOLDERS) /\
  NoDup (keys sample_plan) /\ length (keys sample_plan) <= MAX_FOLDERS.
Proof.
  assert (Hceil : forall items,
             raw_result batch_answer = Some (JObj items) ->
             distinct (keys items) <= MAX_FOLDERS).
  { intros items H. vm_compute in H. injection H as <-. vm_compute. lia. }
  split; [exact sample_batch_run|]. split; [exact Hceil|].
  apply (batch_classify_respects_ceiling
           (fun _ => batch_answer) sample_files batch_world sample_batch_run Hceil).
Defined.

Lemma batch_classify_no_empty_group_witness :
  batch_classify (fun _ => batch_answer) sample_files batch_world
  = (Ret sample_plan, mkWorld (fs batch_world) [Asked batch_request]) /\
  (forall folder members, In (folder, members) sample_plan -> members <> []) /\
  ~ In (py "Empty") (keys sample_plan).
Proof.
  split; [exact sample_batch_run|]. split.
  - apply (batch_classify_no_empty_group
             sample_home (fun _ => batch_answer) sample_files batch_world sample_batch_run).
  - vm_compute. intuition discriminate.
Defined.

Lemma ignored_files_left_alone_witness :
  should_ignore hidden_file = true /\
  (forall r w', initial_scan sample_home (fun _ => batch_answer) batch_world = (r, w') ->
      exists t, trace w' = trace batch_world ++ t /\
                forall e, In e t -> ~ event_involves hidden_file e) /\
  handle_new_file sample_home (fun _ => batch_answer) hidden_file batch_world
  = (Ret tt, batch_world).
Proof.
  split; [reflexivity|].
  pose proof (ignored_files_left_alone
                sample_home (fun _ => batch_answer) hidden_file batch_world
                eq_refl) as (H1 & H2 & _).
  split; assumption.
Defined.

Lemma initial_scan_nothing_to_do_witness :
  fst (files_to_process sample_home tidy_world) = Ret [] /\
  initial_scan sample_home (fun _ => batch_answer) tidy_world = (Ret tt, tidy_world).
Proof.
  split; [vm_compute; reflexivity|].
  apply (initial_scan_nothing_to_do sample_home (fun _ => batch_answer) tidy_world).
  vm_compute. reflexivity.
Defined.

Lemma fenced_answer_parses_like_bare_answer_witness :
  (py "```json" = py "```json" \/ py "```json" = py "```") /\
  str_contains (folder_answer "Taxes") (py "```") = false /\
  forallb isspace (py " ") = true /\ forallb isspace nl = true /\
  raw_result (py " " ++ fenced (py "```json") (folder_answer "Taxes") ++ nl)
  = raw_result (folder_answer "Taxes") /\
  raw_result (folder_answer "Taxes") = Some (JObj [(py "folder", JStr (py "Taxes"))]).
Proof.
  split; [left; reflexivity|]. split; [reflexivity|].
  split; [reflexivity|]. split; [reflexivity|]. split.
  - destruct (@fenced_answer_parses_like_bare_answer
                sample_home (py "```json") (folder_answer "Taxes") (py " ") nl
                (or_introl eq_refl) eq_refl eq_refl eq_refl) as (_ & _ & H & _).
    exact H.
  - vm_compute. reflexivity.
Defined.

(** The batch scenario of the specification: two folders are made and
    the three files end up in them; the hidden file stays. *)
Example initial_scan_sample :
  initial_scan sample_home (fun _ => batch_answer) batch_world =
  (Ret tt,
   mkWorld
     (sample_dirs ++
      [(hidden_file, File);
       (sample_root ++ [py "Receipts"], Dir);
       (sample_root ++ [py "Receipts"; py "invoice1.pdf"], File);
       (sample_root ++ [py "Receipts"; py "invoice2.pdf"], File);
       (sample_root ++ [py "Music"], Dir);
       (sample_root ++ [py "Music"; py "song.mp3"], File)])
     [Asked batch_request;
      Mkdir (sample_root ++ [py "Receipts"]);
      Moved (sample_root ++ [py "invoice1.pdf"]) (py "Receipts");
      Moved (sample_root ++ [py "invoice2.pdf"]) (py "Receipts");
      Mkdir (sample_root ++ [py "Music"]);
      Moved (sample_root ++ [py "song.mp3"]) (py "Music")]).
Proof. vm_compute. reflexivity. Qed.

(** The live scenario of the specification: the folder [Taxes] exists
    and the provider chooses it. *)
Example handle_new_file_sample :
  handle_new_file sample_home (fun _ => folder_answer "Taxes")
                  (sample_root ++ [py "report.pdf"])
                  (mkWorld (fs tidy_world ++ [(sample_root ++ [py "report.pdf"], File)]) [])
  = (Ret tt,
     mkWorld (fs tidy_world ++ [(sample_root ++ [py "Taxes"; py "report.pdf"], File)])
             [Asked (LiveRequest [py "Taxes"] (py "report.pdf"));
              Moved (sample_root ++ [py "report.pdf"]) (py "Taxes")]).
Proof. vm_compute. reflexivity. Qed.

(** A file listed twice in a folder: its second move fails, because the
    file is gone, and the file after it is moved all the same. *)
Example apply_moves_goes_on_after_a_failure :
  apply_moves sample_home
              [(py "Music", [sample_root ++ [py "song.mp3"];
                             sample_root ++ [py "song.mp3"];
                             sample_root ++ [py "invoice1.pdf"]])]
              batch_world
  = (Ret tt,
     mkWorld
       (sample_dirs ++
        [(sample_root ++ [py "invoice2.pdf"], File);
         (hidden_file, File);
         (sample_root ++ [py "Music"], Dir);
         (sample_root ++ [py "Music"; py "song.mp3"], File);
         (sample_root ++ [py "Music"; py "invoice1.pdf"], File)])
       [Mkdir (sample_root ++ [py "Music"]);
        Moved (sample_root ++ [py "song.mp3"]) (py "Music");
        MoveFailed (sample_root ++ [py "song.mp3"]) (py "Music");
        Moved (sample_root ++ [py "invoice1.pdf"]) (py "Music")]).
Proof. vm_compute. reflexivity. Qed.

(** * Further properties of the script *)

(** ** [sanitize_folder] *)

Lemma lstrip_head (s : str) (c : char) (t : str) :
  lstrip s = c :: t -> isspace c = false.
Proof.
  induction s as [|x s IH]; simpl; [discriminate|].
  destruct (isspace x) eqn:E; [assumption|]. intros H. now injection H as <- _.
Qed.

Lemma rstrip_last (s : str) (t : str) (c : char) :
  rstrip s = t ++ [c] -> isspace c = false.
Proof.
  unfold rstrip. intros H. apply (f_equal (@rev char)) in H.
  rewrite rev_involutive, rev_app_distr in H. simpl in H.
  now apply lstrip_head in H.
Qed.

Lemma strip_head (s : str) (c : char) (t : str) :
  strip s = c :: t -> isspace c = false.
Proof.
  unfold strip. destruct (lstrip s) as [|x u] eqn:E.
  - discriminate.
  - pose proof (lstrip_head _ E) as Hx.
    rewrite rstrip_cons_nonspace by assumption. intros H. now injection H as <- _.
Qed.

Lemma lstrip_length (s : str) : length (lstrip s) <= length s.
Proof.
  induction s as [|c s IH]; simpl; [lia|]. destruct (isspace c); simpl; lia.
Qed.

Lemma strip_length (s : str) : length (strip s) <= length s.
Proof.
  unfold strip, rstrip. rewrite length_rev.
  pose proof (lstrip_length (rev (lstrip s))) as H1.
  pose proof (lstrip_length s) as H2. rewrite length_rev in H1. lia.
Qed.

Lemma map_subst_absent (x y : char) (s : str) :
  ~ In x s -> map (subst_char x y) s = s.
Proof.
  induction s as [|c s IH]; simpl; intros H; [reflexivity|].
  unfold subst_char at 1. destruct (N.eqb c x) eqn:E.
  - apply N.eqb_eq in E. subst c. exfalso. apply H. now left.
  - f_equal. apply IH. intros Hin. apply H. now right.
Qed.

(** X1. What [sanitize_folder] returns is never longer than its input,
    holds no path separator, and neither begins nor ends with white
    space. *)
Theorem sanitize_folder_clean (x : str) :
  length (sanitize_folder x) <= length x /\
  ~ In (ch "/") (sanitize_folder x) /\
  (forall c t, sanitize_folder x = c :: t -> isspace c = false) /\
  (forall t c, sanitize_folder x = t ++ [c] -> isspace c = false).
Proof.
  split; [|split; [|split]].
  - rewrite sanitize_folder_map.
    pose proof (strip_length (map (subst_char (ch "/") (ch "_")) x)) as H.
    now rewrite length_map in H.
  - apply sanitize_folder_no_slash.
  - intros c t. rewrite sanitize_folder_map. apply strip_head.
  - intros t c. rewrite sanitize_folder_map. unfold strip. apply rstrip_last.
Qed.

(** X2. The names [sanitize_folder] leaves as they are are exactly the
    names without a path separator and without surrounding white space. *)
Theorem sanitize_folder_fixed_points (x : str) :
  sanitize_folder x = x <-> (~ In (ch "/") x /\ strip x = x).
Proof.
  split.
  - intros H. split.
    + rewrite <- H. apply sanitize_folder_no_slash.
    + rewrite <- H at 1. rewrite sanitize_folder_map, strip_idem.
      now rewrite <- sanitize_folder_map.
  - intros [H1 H2]. rewrite sanitize_folder_map, map_subst_absent by assumption.
    exact H2.
Qed.

Lemma subst_slash_keeps_space (ws : str) :
  forallb isspace (map (subst_char (ch "/") (ch "_")) ws) = forallb isspace ws.
Proof.
  induction ws as [|c ws IH]; [reflexivity|].
  cbn [map forallb]. now rewrite subst_slash_space, IH.
Qed.

(** X3. White space around a proposed name does not count: two names
    that differ only in it are sanitised to the same folder name. *)
Theorem sanitize_folder_ignores_padding (ws1 x ws2 : str) :
  forallb isspace ws1 = true -> forallb isspace ws2 = true ->
  sanitize_folder (ws1 ++ x ++ ws2) = sanitize_folder x.
Proof.
  intros H1 H2. rewrite !sanitize_folder_map, !map_app.
  apply strip_pad; now rewrite subst_slash_keeps_space.
Qed.

Lemma sanitize_folder_ignores_padding_witness :
  forallb isspace (py "  ") = true /\ forallb isspace nl = true /\
  sanitize_folder (py "  " ++ py "tax/2019" ++ nl) = sanitize_folder (py "tax/2019") /\
  sanitize_folder (py "tax/2019") = py "tax_2019".
Proof.
  split; [reflexivity|]. split; [reflexivity|]. split.
  - apply (sanitize_folder_ignores_padding (py "  ") (py "tax/2019") nl); reflexivity.
  - vm_compute. reflexivity.
Defined.

(** ** Targets *)

Lemma startswith_no_slash (s : str) :
  ~ In (ch "/") s -> startswith s (py "/") = false.
Proof.
  destruct s as [|c s]; [reflexivity|]. intros H. simpl.
  destruct (N.eqb c 47) eqn:E; [|reflexivity].
  apply N.eqb_eq in E. subst c. exfalso. apply H. now left.
Qed.

Lemma split_slash_no_slash (cur s : str) :
  ~ In (ch "/") s -> split_slash cur s = [rev cur ++ s].
Proof.
  revert cur. induction s as [|c s IH]; intros cur H; cbn [split_slash].
  - now rewrite app_nil_r.
  - destruct (N.eqb c (ch "/")) eqn:E.
    + apply N.eqb_eq in E. subst c. exfalso. apply H. now left.
    + rewrite IH by (intros Hin; apply H; now right).
      cbn [rev]. now rewrite <- app_assoc.
Qed.

Lemma joinpath_no_slash (p : path) (s : str) :
  ~ In (ch "/") s ->
  joinpath p s = if str_eqb s [] || str_eqb s (py ".") then p else p ++ [s].
Proof.
  intros H. unfold joinpath, parse_parts.
  rewrite startswith_no_slash, split_slash_no_slash by assumption. simpl.
  destruct (str_eqb s []), (str_eqb s (py ".")); simpl;
    try reflexivity; apply app_nil_r.
Qed.

Lemma joinpath_plain (p : path) (n : str) : plain_name n -> joinpath p n = p ++ [n].
Proof.
  intros (H1 & H2 & H3 & _). rewrite joinpath_no_slash by assumption.
  apply str_eqb_neq in H2, H3. now rewrite H2, H3.
Qed.



(** ** [should_ignore] *)

(** X5. A path is ignored exactly when its name begins with a dot or is
    [Thumbs.db]: of the three names of the ignore set only [Thumbs.db]
    adds to the rule of the leading dot. *)
Theorem should_ignore_exactly (p : path) :
  should_ignore p = true <->
  (exists rest, name p = ch "." :: rest) \/ name p = py "Thumbs.db".
Proof.
  unfold should_ignore. rewrite orb_true_iff, mem_str_In. split.
  - intros [H|H].
    + left. destruct (name p) as [|c rest]; [discriminate|].
      simpl in H. apply andb_true_iff in H as [H _]. apply N.eqb_eq in H.
      subst c. now exists rest.
    + destruct H as [<-|[<-|[<-|[]]]].
      * left. now eexists.
      * left. now eexists.
      * now right.
  - intros [[rest ->]| ->].
    + now left.
    + right. right. right. now left.
Qed.

(** ** The eligible files *)

Lemma children_spec (f : FS) (q : path) (n : str) :
  In n (children f q) <-> exists k, In (q ++ [n], k) f.
Proof.
  unfold children. rewrite in_flat_map. split.
  - intros ([p k] & Hin & Hn). cbn [fst] in Hn.
    destruct p as [|c p]; [destruct Hn|].
    destruct (path_eqb (parent (c :: p)) q) eqn:E; [|destruct Hn].
    destruct Hn as [<-|[]]. apply path_eqb_eq in E.
    exists k. rewrite <- E. unfold parent, name.
    rewrite <- app_removelast_last by discriminate. exact Hin.
  - intros (k & Hin). exists (q ++ [n], k). split; [assumption|]. cbn [fst].
    destruct (q ++ [n]) as [|c p] eqn:E; [now destruct q|].
    rewrite <- E, parent_app, path_eqb_refl, name_app. now left.
Qed.

(** X6. The files the initial scan offers to the provider are exactly
    the entries directly in the watched root that are plain files and
    are not ignored: directories, ignored files and everything deeper
    are left out, and listing them changes nothing. *)
Theorem files_to_process_exactly (home : path) (w : World) (root : path) :
  canon (fs w) (BASE_FOLDER home) = Some root ->
  kind_of (fs w) root = Some Dir ->
  exists files,
    files_to_process home w = (Ret files, w) /\
    forall f,
      In f files <->
      (exists n k, f = BASE_FOLDER home ++ [n] /\ In (root ++ [n], k) (fs w)) /\
      is_file (fs w) f = true /\ should_ignore f = false.
Proof.
  intros Hc Hk. rewrite files_to_process_run.
  assert (Hd : is_dir (fs w) (BASE_FOLDER home) = true).
  { unfold is_dir, stat. now rewrite Hc, Hk. }
  rewrite Hd. eexists. split; [reflexivity|].
  intros f. rewrite filter_In, andb_true_iff, negb_true_iff.
  unfold listing. rewrite Hc, in_map_iff. split.
  - intros [(n & <- & Hn) [H1 H2]]. apply children_spec in Hn as [k Hk'].
    repeat split; try assumption. now exists n, k.
  - intros [(n & k & -> & Hin) [H1 H2]]. repeat split; try assumption.
    exists n. split; [reflexivity|]. apply children_spec. now exists k.
Qed.

Lemma files_to_process_exactly_witness :
  canon (fs batch_world) (BASE_FOLDER sample_home) = Some sample_root /\
  kind_of (fs batch_world) sample_root = Some Dir /\
  exists files,
    files_to_process sample_home batch_world = (Ret files, batch_world) /\
    forall f,
      In f files <->
      (exists n k, f = BASE_FOLDER sample_home ++ [n] /\
                   In (sample_root ++ [n], k) (fs batch_world)) /\
      is_file (fs batch_world) f = true /\ should_ignore f = false.
Proof.
  split; [vm_compute; reflexivity|]. split; [reflexivity|].
  apply (@files_to_process_exactly sample_home batch_world sample_root);
    vm_compute; reflexivity.
Defined.

(** X7. When the watched root is not a directory, the initial scan
    raises at once ([BASE_FOLDER.iterdir()] is not guarded): the
    provider is not asked and nothing is changed. *)
Theorem initial_scan_without_root (home : path) (g : request -> str) (w : World) :
  is_dir (fs w) (BASE_FOLDER home) = false ->
  initial_scan home g w = (Raise OSError, w).
Proof. intros H. rewrite initial_scan_run. now rewrite H. Qed.

Lemma initial_scan_without_root_witness :
  is_dir [] (BASE_FOLDER sample_home) = false /\
  initial_scan sample_home (fun _ => batch_answer) (mkWorld [] [])
  = (Raise OSError, mkWorld [] []).
Proof.
  split; [reflexivity|].
  apply (initial_scan_without_root sample_home (fun _ => batch_answer) (mkWorld [] [])).
  reflexivity.
Defined.

(** ** Which file goes into which folder *)

Lemma assigned_setdefault_append (m : list (str * list path)) (k0 : str) (f0 : path)
      (k : str) (f : path) :
  assigned (setdefault_append m k0 f0) k f <-> assigned m k f \/ (k = k0 /\ f = f0).
Proof.
  unfold assigned. induction m as [|[k1 l1] m IH]; simpl.
  - split.
    + intros (members & [E|[]] & Hf). injection E as <- <-.
      destruct Hf as [<-|[]]. now right.
    + intros [(members & [] & _)|[-> ->]]. exists [f0]. split; now left.
  - destruct (str_eqb k1 k0) eqn:E.
    + apply str_eqb_eq in E. subst k1. split.
      * intros (members & [E'|Hin] & Hf).
        -- injection E' as <- <-. apply in_app_or in Hf as [Hf|[<-|[]]].
           ++ left. exists l1. split; [now left | assumption].
           ++ now right.
        -- left. exists members. split; [now right | assumption].
      * intros [(members & [E'|Hin] & Hf)|[-> ->]].
        -- injection E' as <- <-. exists (l1 ++ [f0]).
           split; [now left | apply in_or_app; now left].
        -- exists members. split; [now right | assumption].
        -- exists (l1 ++ [f0]). split; [now left | apply in_or_app; right; now left].
    + split.
      * intros (members & [E'|Hin] & Hf).
        -- injection E' as <- <-. left. exists l1. split; [now left | assumption].
        -- destruct (proj1 IH (ex_intro _ members (conj Hin Hf))) as [(l & H1 & H2)|H].
           ++ left. exists l. split; [now right | assumption].
           ++ now right.
      * intros [(members & [E'|Hin] & Hf)|H].
        -- injection E' as <- <-. exists l1. split; [now left | assumption].
        -- destruct (proj2 IH (or_introl (ex_intro _ members (conj Hin Hf))))
             as (l & H1 & H2).
           exists l. split; [now right | assumption].
        -- destruct (proj2 IH (or_intror H)) as (l & H1 & H2).
           exists l. split; [now right | assumption].
Qed.

Lemma assign_files_assigned (clean : str) (filenames : json) (fl : list path)
      (m m' : list (str * list path)) (k : str) (f : path) :
  assign_files clean filenames fl m = Ret m' ->
  (assigned m' k f <->
   assigned m k f \/ (k = clean /\ In f fl /\ py_in (name f) filenames = Ret true)).
Proof.
  revert m. induction fl as [|f0 fl IH]; simpl; intros m H.
  - injection H as <-. split; [now left|]. intros [H|(_ & [] & _)]. exact H.
  - destruct (py_in (name f0) filenames) as [[|]|e] eqn:E; [| |discriminate].
    + rewrite (IH _ H), assigned_setdefault_append. split.
      * intros [[H1|[-> ->]]|(-> & H2 & H3)]; [now left | |].
        -- right. repeat split; [now left | assumption].
        -- right. repeat split; [now right | assumption].
      * intros [H1|(-> & [<-|H2] & H3)].
        -- left. now left.
        -- left. now right.
        -- right. now repeat split.
    + rewrite (IH _ H). split.
      * intros [H1|(-> & H2 & H3)]; [now left|]. right. repeat split; [now right | assumption].
      * intros [H1|(-> & [<-|H2] & H3)]; [now left | congruence |].
        right. now repeat split.
Qed.

Lemma cluster_assigned (items : list (str * json)) (files : list path)
      (m m' : list (str * list path)) (k : str) (f : path) :
  cluster items files m = Ret m' ->
  (assigned m' k f <-> assigned m k f \/ (In f files /\ listed items k f)).
Proof.
  revert m. induction items as [|[raw fn] items IH]; simpl; intros m H.
  - injection H as <-. split; [now left|].
    intros [H|(_ & raw & fn & [] & _)]. exact H.
  - destruct (assign_files (sanitize_folder raw) fn files m) as [m1|e] eqn:E;
      [|discriminate].
    rewrite (IH _ H), (@assign_files_assigned _ _ _ _ _ k f E). unfold listed. split.
    + intros [[H1|(-> & H2 & H3)]|(H2 & raw' & fn' & H3 & H4 & H5)].
      * now left.
      * right. split; [assumption|]. exists raw, fn. split; [now left | now split].
      * right. split; [assumption|]. exists raw', fn'. split; [now right | now split].
    + intros [H1|(H2 & raw' & fn' & [E'|H3] & H4 & H5)].
      * left. now left.
      * injection E' as <- <-. left. right. now repeat split.
      * right. split; [assumption|]. exists raw', fn'. now repeat split.
Qed.





(** X9. A candidate the provider does not mention stays out of the
    plan, and the initial scan never tries to move it: no status line
    names it. *)
Theorem unmentioned_files_are_not_moved
        (home : path) (g : request -> str) (w : World) (f : path) :
  (forall r items raw filenames,
      raw_result (g r) = Some (JObj items) -> In (raw, filenames) items ->
      py_in (name f) filenames <> Ret true) ->
  forall r w',
    initial_scan home g w = (r, w') ->
    exists t, trace w' = trace w ++ t /\
              forall folder, ~ In (Moved f folder) t /\ ~ In (MoveFailed f folder) t.
Proof.
  intros Hun r w'. rewrite initial_scan_run.
  set (files := filter _ _). set (req := BatchRequest (map name files) MAX_FOLDERS).
  assert (Hmoves : forall plan r0 w0,
             (forall k, ~ assigned plan k f) ->
             apply_moves home plan (mkWorld (fs w) (trace w ++ [Asked req])) = (r0, w0) ->
             exists t, trace w0 = trace w ++ t /\
                       forall folder, ~ In (Moved f folder) t /\ ~ In (MoveFailed f folder) t).
  { intros plan r0 w0 Hna Hrun.
    apply apply_moves_events in Hrun as (t & Ht & Hev). simpl in Ht.
    exists (Asked req :: t). split; [now rewrite Ht, <- app_assoc|].
    assert (Hno : forall e folder, In e t -> outcome_of folder f e -> False).
    { intros e folder Hin Ho. destruct (Hev _ Hin) as [(k & _ & ->)|(k & m & f' & H1 & H2 & H3)].
      - destruct Ho; discriminate.
      - apply (Hna k). exists m. split; [assumption|].
        destruct Ho as [-> | ->], H3 as [E|E]; try discriminate E;
          injection E as <- _; assumption. }
    intros folder. split; intros [E|Hin]; try discriminate E.
    - apply (Hno _ folder Hin). now left.
    - apply (Hno _ folder Hin). now right. }
  destruct (is_dir (fs w) (BASE_FOLDER home));
    [|intros H; injection H as _ <-; exists []; rewrite app_nil_r;
      split; [reflexivity | intros folder; split; intros []]].
  destruct files as [|f0 files'] eqn:Ef;
    [intros H; injection H as _ <-; exists []; rewrite app_nil_r;
     split; [reflexivity | intros folder; split; intros []]|].
  destruct (raw_result (g req)) as [data|] eqn:Eraw.
  - destruct (materialize data (f0 :: files')) as [plan|e] eqn:Em.
    + apply Hmoves. intros k Hk.
      destruct data; try discriminate Em.
      apply (@cluster_assigned _ _ _ _ k f Em) in Hk
        as [(m & [] & _)|(_ & raw & fn & H1 & _ & H3)].
      now apply (Hun _ _ _ _ Eraw H1).
    + intros H. injection H as _ <-. exists [Asked req]. split; [reflexivity|].
      intros folder. split; intros [E|[]]; discriminate E.
  - apply Hmoves. intros k (m & [] & _).
Qed.

Lemma unmentioned_files_are_not_moved_witness :
  exists w',
    initial_scan sample_home (fun _ => partial_answer) batch_world = (Ret tt, w') /\
    In (Moved (sample_root ++ [py "invoice1.pdf"]) (py "Receipts")) (trace w') /\
    In (Moved (sample_root ++ [py "invoice2.pdf"]) (py "Receipts")) (trace w') /\
    lookup (fs w') (sample_root ++ [py "song.mp3"]) = Some File /\
    exists t, trace w' = trace batch_world ++ t /\
              forall folder,
                ~ In (Moved (sample_root ++ [py "song.mp3"]) folder) t /\
                ~ In (MoveFailed (sample_root ++ [py "song.mp3"]) folder) t.
Proof.
  assert (H : forall r items raw filenames,
             raw_result ((fun _ : request => partial_answer) r) = Some (JObj items) ->
             In (raw, filenames) items ->
             py_in (name (sample_root ++ [py "song.mp3"])) filenames <> Ret true).
  { intros r items raw filenames E. vm_compute in E. injection E as <-.
    intros [E|[]]. injection E as _ <-. vm_compute. discriminate. }
  eexists. split; [vm_compute; reflexivity|].
  split; [vm_compute; tauto|]. split; [vm_compute; tauto|].
  split; [vm_compute; reflexivity|].
  eapply (@unmentioned_files_are_not_moved
            sample_home (fun _ => partial_answer) batch_world
            (sample_root ++ [py "song.mp3"]) H).
  vm_compute. reflexivity.
Defined.

(** X10. An answer that is not well-formed JSON is no action: the
    initial scan returns normally with an empty plan and live mode
    leaves the new file where it is; in both modes the file system is
    untouched and the only event is the request. *)
Theorem malformed_answer_is_no_action (home : path) (g : request -> str) :
  (forall r, raw_result (g r) = None) ->
  (forall w, is_dir (fs w) (BASE_FOLDER home) = true ->
      exists w', initial_scan home g w = (Ret tt, w') /\ fs w' = fs w /\
                 (trace w' = trace w \/ exists r, trace w' = trace w ++ [Asked r])) /\
  (forall file_path w,
      exists w', handle_new_file home g file_path w = (Ret tt, w') /\ fs w' = fs w /\
                 (trace w' = trace w \/ exists r, trace w' = trace w ++ [Asked r])).
Proof.
  intros Hbad. split.
  - intros w Hd. rewrite initial_scan_run, Hd.
    destruct (filter _ _) as [|f0 files'].
    + exists w. split; [reflexivity|]. split; [reflexivity | now left].
    + rewrite Hbad. simpl. unfold ret. eexists. split; [reflexivity|].
      split; [reflexivity|]. right. now eexists.
  - intros file_path w.
    destruct (handle_new_file_run home g file_path w)
      as (w' & Hrun & [[_ ->]|[_ [->|(folder & moved & Hc & _)]]]).
    + exists w. split; [assumption|]. split; [reflexivity | now left].
    + eexists. split; [eassumption|]. split; [reflexivity|]. right. now eexists.
    + rewrite Hbad in Hc. discriminate Hc.
Qed.

Lemma malformed_answer_is_no_action_witness :
  (forall r, raw_result ((fun _ : request => py "Sorry, I cannot help.") r) = None) /\
  (forall w, is_dir (fs w) (BASE_FOLDER sample_home) = true ->
      exists w', initial_scan sample_home (fun _ => py "Sorry, I cannot help.") w
                 = (Ret tt, w') /\ fs w' = fs w /\
                 (trace w' = trace w \/ exists r, trace w' = trace w ++ [Asked r])).
Proof.
  assert (H : forall r, raw_result ((fun _ : request => py "Sorry, I cannot help.") r) = None)
    by (intros r; vm_compute; reflexivity).
  split; [exact H|].
  exact (proj1 (@malformed_answer_is_no_action
                  sample_home (fun _ => py "Sorry, I cannot help.") H)).
Defined.

(** ** A folder name taken by a file *)

(** X11. [mkdir] is outside the [try] of [apply_moves]: when the target
    of a folder of the plan is an existing plain file, [apply_moves]
    raises there; nothing of that folder or of the folders after it is
    moved, and the file system is as it was at that point. *)
Theorem apply_moves_stops_at_taken_name
        (home : path) (folder : str) (files : list path)
        (rest : list (str * list path)) (w : World) :
  is_file (fs w) (joinpath (BASE_FOLDER home) folder) = true ->
  apply_moves home ((folder, files) :: rest) w =
  (Raise OSError,
   mkWorld (fs w) (trace w ++ [Mkdir (joinpath (BASE_FOLDER home) folder)])).
Proof.
  intros Hf. cbn [apply_moves]. unfold bind at 1.
  unfold mkdir, bind, emit, get_fs, put_fs, raise, ret. simpl.
  unfold is_file, stat in Hf.
  destruct (canon (fs w) (joinpath (BASE_FOLDER home) folder)) as [q|]; [|discriminate].
  now destruct (kind_of (fs w) q) as [[|]|].
Qed.

Lemma apply_moves_stops_at_taken_name_witness :
  is_file (fs batch_world) (joinpath (BASE_FOLDER sample_home) (py "song.mp3")) = true /\
  apply_moves sample_home
              [(py "song.mp3", [sample_root ++ [py "invoice1.pdf"]]);
               (py "Music", [sample_root ++ [py "invoice2.pdf"]])]
              batch_world =
  (Raise OSError,
   mkWorld (fs batch_world) [Mkdir (sample_root ++ [py "song.mp3"])]).
Proof.
  split; [reflexivity|].
  apply (@apply_moves_stops_at_taken_name
           sample_home (py "song.mp3") [sample_root ++ [py "invoice1.pdf"]]
           [(py "Music", [sample_root ++ [py "invoice2.pdf"]])] batch_world).
  reflexivity.
Defined.

(** ** The file system under the library calls *)

Lemma path_eqb_neq (a b : path) : path_eqb a b = false <-> a <> b.
Proof.
  split.
  - intros H E. apply path_eqb_eq in E. congruence.
  - intros H. destruct (path_eqb a b) eqn:E; [|reflexivity].
    apply path_eqb_eq in E. contradiction.
Qed.

Lemma lookup_fs_remove (f : FS) (s p : path) :
  lookup (fs_remove f s) p = if path_eqb s p then None else lookup f p.
Proof.
  induction f as [|[q k] f IH]; simpl.
  - now destruct (path_eqb s p).
  - destruct (path_eqb q s) eqn:E; simpl.
    + rewrite IH. apply path_eqb_eq in E. subst q.
      now destruct (path_eqb s p).
    + rewrite IH. destruct (path_eqb q p) eqn:E'; [|reflexivity].
      apply path_eqb_eq in E'. subst q. now rewrite (proj2 (path_eqb_neq s p))
        by (intros ->; now rewrite path_eqb_refl in E).
Qed.

Lemma kind_of_cons (f : FS) (c : str) (p : path) : kind_of f (c :: p) = lookup f (c :: p).
Proof. reflexivity. Qed.

Lemma kind_of_lookup (f : FS) (p : path) (k : kind) :
  lookup f p = Some k -> p <> [] -> kind_of f p = Some k.
Proof. destruct p; [contradiction | trivial]. Qed.

Lemma kind_of_app (f : FS) (p : path) (n : str) : kind_of f (p ++ [n]) = lookup f (p ++ [n]).
Proof. now destruct p. Qed.

(** The table after a plain file was renamed from [s] to [d]. *)
Lemma lookup_renamed (f : FS) (s d p : path) :
  lookup (fs_set (fs_remove f s) d File) p =
  if path_eqb d p then Some File
  else if path_eqb s p then None else lookup f p.
Proof. now rewrite lookup_fs_set, lookup_fs_remove. Qed.

Lemma canon_child (f : FS) (p c : path) (n : str) :
  canon f p = Some c -> kind_of f c = Some Dir -> n <> py ".." ->
  canon f (p ++ [n]) = Some (c ++ [n]).
Proof.
  intros Hc Hk Hn. rewrite canon_app, Hc. unfold walk. rewrite Hk.
  apply str_eqb_neq in Hn. now rewrite Hn.
Qed.

(** Resolution only looks at directories: it is kept by every change
    that keeps the directories. *)
Lemma canon_mono (f f' : FS) (p c : path) :
  (forall d, kind_of f d = Some Dir -> kind_of f' d = Some Dir) ->
  canon f p = Some c -> canon f' p = Some c.
Proof.
  intros Hd. revert c. induction p as [|x p IH] using rev_ind; intros c.
  - trivial.
  - rewrite !canon_app. destruct (canon f p) as [d|]; [|discriminate].
    rewrite (IH d eq_refl). unfold walk.
    destruct (kind_of f d) as [[|]|] eqn:E; try discriminate.
    now rewrite (Hd _ E).
Qed.

Lemma os_rename_file (src dst s d : path) (w : World) :
  canon (fs w) src = Some s -> kind_of (fs w) s = Some File ->
  canon (fs w) dst = Some d ->
  os_rename src dst w =
  if path_eqb s d then (Ret tt, w)
  else match kind_of (fs w) d with
       | Some Dir => (Raise OSError, w)
       | _ => (Ret tt, mkWorld (fs_set (fs_remove (fs w) s) d File) (trace w))
       end.
Proof.
  intros Hs Hk Hd. unfold os_rename, bind, get_fs, put_fs, raise, ret.
  rewrite Hs, Hd. destruct s as [|c s]; [discriminate Hk|]. rewrite Hk.
  destruct (path_eqb (c :: s) d); [reflexivity|].
  now destruct (kind_of (fs w) d) as [[|]|].
Qed.

Lemma os_rename_gone (src dst : path) (w : World) :
  stat (fs w) src = None -> os_rename src dst w = (Raise OSError, w).
Proof.
  unfold stat, os_rename, bind, get_fs, put_fs, raise, ret.
  destruct (canon (fs w) src) as [s|]; [|reflexivity].
  intros H. destruct s as [|c s]; [discriminate H|].
  destruct (canon (fs w) dst); [|reflexivity]. now rewrite H.
Qed.

Lemma os_rename_nowhere (src dst : path) (w : World) :
  canon (fs w) dst = None -> os_rename src dst w = (Raise OSError, w).
Proof.
  unfold os_rename, bind, get_fs, put_fs, raise, ret. intros ->.
  now destruct (canon (fs w) src).
Qed.

(** Moving a file that is not there fails and changes nothing. *)
Lemma shutil_move_gone (src dst : path) (w : World) :
  stat (fs w) src = None -> exists e, shutil_move src dst w = (Raise e, w).
Proof.
  intros H. unfold shutil_move, bind, get_fs at 1. simpl.
  assert (Hs : samefile (fs w) src dst = false).
  { unfold samefile. unfold stat in H.
    destruct (canon (fs w) src) as [x|]; [|reflexivity].
    rewrite H. destruct (canon (fs w) dst); [|reflexivity]. apply andb_false_r. }
  rewrite Hs.
  destruct (is_dir (fs w) dst).
  - destruct (exists_ (fs w) (dst ++ [name src])).
    + now exists ShutilError.
    + exists OSError. now apply os_rename_gone.
  - exists OSError. now apply os_rename_gone.
Qed.

(** Moving a plain file to a free place. *)
Lemma shutil_move_file (src dst s d : path) (w : World) :
  canon (fs w) src = Some s -> kind_of (fs w) s = Some File ->
  canon (fs w) dst = Some d -> kind_of (fs w) d = None ->
  shutil_move src dst w =
  (Ret tt, mkWorld (fs_set (fs_remove (fs w) s) d File) (trace w)).
Proof.
  intros Hs Hk Hd Hn. unfold shutil_move, bind, get_fs at 1. simpl.
  unfold is_dir, stat. rewrite Hd, Hn. simpl.
  rewrite (@os_rename_file src dst s d w Hs Hk Hd), Hn.
  rewrite (proj2 (path_eqb_neq s d)); [reflexivity|].
  intros ->. congruence.
Qed.

Lemma rename_keeps_dirs (f : FS) (s d x : path) :
  kind_of f s = Some File -> kind_of f d <> Some Dir ->
  kind_of f x = Some Dir ->
  kind_of (fs_set (fs_remove f s) d File) x = Some Dir.
Proof.
  intros Hs Hd Hx. destruct x as [|c x]; [reflexivity|].
  rewrite kind_of_cons, lookup_renamed.
  destruct (path_eqb d (c :: x)) eqn:E1.
  { apply path_eqb_eq in E1. subst d. contradiction. }
  destruct (path_eqb s (c :: x)) eqn:E2.
  { apply path_eqb_eq in E2. subst s. congruence. }
  exact Hx.
Qed.

Lemma mkdir_keeps_dirs (f : FS) (q x : path) :
  kind_of f x = Some Dir -> kind_of (fs_set f q Dir) x = Some Dir.
Proof.
  destruct x as [|c x]; [reflexivity|]. rewrite !kind_of_cons, lookup_fs_set.
  now destruct (path_eqb q (c :: x)).
Qed.

Lemma mkdir_ok (target q : path) (w : World) :
  canon (fs w) target = Some q -> kind_of (fs w) q <> Some File ->
  mkdir target w =
  (Ret tt,
   mkWorld (match kind_of (fs w) q with
            | Some _ => fs w
            | None => fs_set (fs w) q Dir
            end) (trace w ++ [Mkdir target])).
Proof.
  intros Hc Hk. unfold mkdir, bind, emit, get_fs, put_fs, raise, ret. simpl.
  rewrite Hc. destruct (kind_of (fs w) q) as [[|]|]; try reflexivity. contradiction.
Qed.

Lemma rename_keeps_dir_entries (f : FS) (s d x : path) :
  kind_of f s = Some File -> kind_of f d <> Some Dir ->
  lookup f x = Some Dir ->
  lookup (fs_set (fs_remove f s) d File) x = Some Dir.
Proof.
  intros Hs Hd Hx. rewrite lookup_renamed.
  destruct (path_eqb d x) eqn:E1.
  { apply path_eqb_eq in E1. subst d. destruct x; [now destruct Hd | contradiction]. }
  destruct (path_eqb s x) eqn:E2.
  { apply path_eqb_eq in E2. subst s. destruct x; [discriminate Hs | simpl in Hs; congruence]. }
  exact Hx.
Qed.

Lemma os_rename_file_keeps_dirs (src dst : path) (w w' : World) (r : result unit) (x : path) :
  is_file (fs w) src = true ->
  os_rename src dst w = (r, w') ->
  lookup (fs w) x = Some Dir -> lookup (fs w') x = Some Dir.
Proof.
  unfold is_file, stat. destruct (canon (fs w) src) as [s|] eqn:Hs; [|discriminate].
  destruct (kind_of (fs w) s) as [[|]|] eqn:Hk; try discriminate. intros _.
  destruct (canon (fs w) dst) as [d|] eqn:Hd.
  - rewrite (@os_rename_file src dst s d w Hs Hk Hd).
    destruct (path_eqb s d); [intros H; now injection H as _ <-|].
    destruct (kind_of (fs w) d) as [[|]|] eqn:Ed; intros H; injection H as _ <-;
      trivial; simpl; apply rename_keeps_dir_entries; congruence.
  - rewrite os_rename_nowhere by assumption. intros H. now injection H as _ <-.
Qed.

Lemma shutil_move_file_keeps_dirs (src dst : path) (w w' : World) (r : result unit) (x : path) :
  is_file (fs w) src = true ->
  shutil_move src dst w = (r, w') ->
  lookup (fs w) x = Some Dir -> lookup (fs w') x = Some Dir.
Proof.
  intros Hf. unfold shutil_move, bind, get_fs at 1. simpl.
  break_match; try (now apply os_rename_file_keeps_dirs).
  unfold raise. intros H. now injection H as _ <-.
Qed.

(** ** Live mode, case by case *)



(** X13. The file is left in place, and the file system untouched,
    whenever the provider's choice cannot be used: no folder name could
    be read from the answer, the name is empty, or nothing exists at the
    target. *)
Theorem handle_new_file_skips (home : path) (g : request -> str)
        (file_path : path) (w : World) :
  eligible home w file_path ->
  (forall folder,
      folder_choice (raw_result (g (live_request home w file_path))) = Some folder ->
      folder = [] \/ exists_ (fs w) (joinpath (BASE_FOLDER home) folder) = false) ->
  handle_new_file home g file_path w =
  (Ret tt, mkWorld (fs w) (trace w ++ [Asked (live_request home w file_path)])).
Proof.
  intros He Hno.
  destruct (handle_new_file_run home g file_path w)
    as (w' & Hrun & [[Hn _]|[_ [->|(folder & moved & Hc & Hne & Hex & _)]]]).
  - contradiction.
  - exact Hrun.
  - destruct (Hno _ Hc) as [->|H]; [contradiction | congruence].
Qed.

Lemma eligible_child (home : path) (w : World) (n : str) (root : path) :
  canon (fs w) (BASE_FOLDER home) = Some root ->
  is_file (fs w) (BASE_FOLDER home ++ [n]) = true ->
  n <> py ".." ->
  kind_of (fs w) root = Some Dir /\
  canon (fs w) (BASE_FOLDER home ++ [n]) = Some (root ++ [n]) /\
  kind_of (fs w) (root ++ [n]) = Some File.
Proof.
  intros Hc Hf Hn.
  assert (Hd : kind_of (fs w) root = Some Dir).
  { unfold is_file in Hf.
    destruct (stat (fs w) (BASE_FOLDER home ++ [n])) as [k|] eqn:E; [|discriminate].
    apply stat_child_dir in E. unfold is_dir, stat in E. rewrite Hc in E.
    now destruct (kind_of (fs w) root) as [[|]|]. }
  split; [assumption|].
  assert (Hcn := @canon_child (fs w) _ _ n Hc Hd Hn). split; [assumption|].
  unfold is_file, stat in Hf. rewrite Hcn in Hf.
  now destruct (kind_of (fs w) (root ++ [n])) as [[|]|].
Qed.

(** X14. The move that live mode is for: the provider chooses the name
    of a directory that exists directly in the watched root and holds
    nothing of the file's name.  Then the file is moved there under its
    own name: afterwards it is a plain file in that folder and is gone
    from the root, and nothing else in the file system has changed. *)
Theorem handle_new_file_moves_into_folder
        (home : path) (g : request -> str) (w : World)
        (root : path) (n folder : str) :
  let file_path := BASE_FOLDER home ++ [n] in
  canon (fs w) (BASE_FOLDER home) = Some root ->
  plain_name n -> plain_name folder ->
  is_file (fs w) file_path = true ->
  should_ignore file_path = false ->
  folder_choice (raw_result (g (live_request home w file_path))) = Some folder ->
  lookup (fs w) (root ++ [folder]) = Some Dir ->
  lookup (fs w) (root ++ [folder; n]) = None ->
  exists w',
    handle_new_file home g file_path w = (Ret tt, w') /\
    trace w' = trace w ++ [Asked (live_request home w file_path); Moved file_path folder] /\
    lookup (fs w') (root ++ [folder; n]) = Some File /\
    lookup (fs w') (root ++ [n]) = None /\
    (forall p, p <> root ++ [n] -> p <> root ++ [folder; n] ->
               lookup (fs w') p = lookup (fs w) p).
Proof.
  intros file_path Hc Hn Hk Hf Hi Hch Hdir Hfree.
  assert (Hn2 : n <> py "..") by apply Hn.
  assert (Hk2 : folder <> py "..") by apply Hk.
  destruct (@eligible_child home w n root Hc Hf Hn2) as (Hroot & Hsrc & Hfile).
  set (asked := mkWorld (fs w) (trace w ++ [Asked (live_request home w file_path)])).
  assert (Htarget : canon (fs w) (BASE_FOLDER home ++ [folder]) = Some (root ++ [folder]))
    by now apply canon_child.
  assert (Htk : kind_of (fs w) (root ++ [folder]) = Some Dir)
    by now rewrite kind_of_app.
  assert (Hdst : canon (fs w) ((BASE_FOLDER home ++ [folder]) ++ [n])
                 = Some ((root ++ [folder]) ++ [n]))
    by now apply canon_child.
  assert (Hdk : kind_of (fs w) ((root ++ [folder]) ++ [n]) = None)
    by now rewrite kind_of_app, <- app_assoc.
  assert (Hmove : shutil_move file_path ((BASE_FOLDER home ++ [folder]) ++ [n]) asked
                  = (Ret tt,
                     mkWorld (fs_set (fs_remove (fs w) (root ++ [n]))
                                     ((root ++ [folder]) ++ [n]) File)
                             (trace asked)))
    by now apply (@shutil_move_file file_path _ (root ++ [n]) _ asked).
  exists (mkWorld (fs_set (fs_remove (fs w) (root ++ [n])) ((root ++ [folder]) ++ [n]) File)
                  (trace asked ++ [Moved file_path folder])).
  split; [|split; [|split; [|split]]].
  - unfold handle_new_file, bind at 1, get_fs at 1. cbn [fst snd].
    rewrite Hf. cbn [negb]. unfold file_path at 1.
    rewrite parent_app, path_eqb_refl. cbn [negb]. fold file_path. rewrite Hi.
    unfold bind at 1.
    rewrite classify_single_file_run
      by (unfold is_dir, stat; now rewrite Hc, Hroot).
    rewrite Hch. fold asked.
    assert (Hex : exists_ (fs asked) (joinpath (BASE_FOLDER home) folder) = true)
      by (rewrite (joinpath_plain _ Hk); unfold exists_, stat; cbn [fs asked];
          now rewrite Htarget, Htk).
    assert (Hne : folder <> []) by apply Hk.
    destruct folder as [|c folder']; [contradiction|].
    unfold bind at 1, get_fs at 1. cbn [fst snd].
    rewrite Hex. cbn [negb]. rewrite (joinpath_plain _ Hk).
    unfold file_path at 2. rewrite name_app, (joinpath_plain _ Hn).
    unfold try_except, bind. rewrite Hmove. reflexivity.
  - simpl. now rewrite <- app_assoc.
  - cbn [fs]. rewrite lookup_renamed, <- app_assoc. simpl app.
    now rewrite path_eqb_refl.
  - cbn [fs]. rewrite lookup_renamed, path_eqb_refl.
    rewrite (proj2 (path_eqb_neq _ _)); [reflexivity|].
    rewrite <- app_assoc. intros E. apply app_inv_head in E. discriminate E.
  - intros p H1 H2. cbn [fs]. rewrite lookup_renamed, <- app_assoc. simpl app.
    rewrite (proj2 (path_eqb_neq _ p)) by congruence.
    now rewrite (proj2 (path_eqb_neq _ p)) by congruence.
Qed.

Lemma on_created_keeps_directories (home : path) (g : request -> str)
      (is_directory : bool) (src_path : path) (w w' : World) (r : result unit) :
  on_created home g is_directory src_path w = (r, w') ->
  r = Ret tt /\
  (forall p, lookup (fs w') p = Some Dir <-> lookup (fs w) p = Some Dir) /\
  (forall target, In (Mkdir target) (trace w') -> In (Mkdir target) (trace w)).
Proof.
  unfold on_created. destruct is_directory.
  - unfold ret. intros H. injection H as <- <-. repeat split; trivial.
  - intros Hrun.
    destruct (handle_new_file_run home g src_path w) as (w2 & Hrun2 & Hcases).
    rewrite Hrun in Hrun2. injection Hrun2 as -> ->.
    split; [reflexivity|].
    destruct Hcases as [[_ ->]|[He [->|(folder & moved & _ & _ & _ & Hmv & ->)]]].
    + split; [reflexivity | trivial].
    + simpl. split; [reflexivity|]. intros target Hin.
      apply in_app_or in Hin as [Hin|[E|[]]]; [assumption | discriminate E].
    + set (asked := mkWorld (fs w) _) in *. split.
      * intros p. cbn [fs]. change (fs w) with (fs asked). split; intros Hp.
        -- eapply (@shutil_move_file_dirs _ _ asked); [apply He | exact Hmv | exact Hp].
        -- eapply (@shutil_move_file_keeps_dirs _ _ asked); [apply He | exact Hmv | exact Hp].
      * intros target Hin. cbn [trace] in Hin.
        apply in_app_or in Hin as [Hin|[E|[]]]; [|discriminate E].
        unfold asked in Hin. cbn [trace] in Hin.
        apply in_app_or in Hin as [Hin|[E|[]]]; [assumption | discriminate E].
Qed.

(** X15. Live mode never grows the folder set: over any sequence of
    creation events, whatever the provider answers to each, the
    directories of the file system stay exactly the same and [mkdir] is
    never called. *)
Theorem live_mode_keeps_the_folder_set (home : path) (w w' : World) :
  live_run home w w' ->
  (forall p, lookup (fs w') p = Some Dir <-> lookup (fs w) p = Some Dir) /\
  (forall target, In (Mkdir target) (trace w') -> In (Mkdir target) (trace w)).
Proof.
  induction 1 as [w|w w1 w2 g isd p r Hstep _ [IH1 IH2]].
  - split; [reflexivity | trivial].
  - apply on_created_keeps_directories in Hstep as (_ & H1 & H2). split.
    + intros q. now rewrite IH1, H1.
    + intros target Hin. apply H2. now apply IH2.
Qed.

(** ** A file listed under two folders *)

(** X16. When the plan lists a file under two folders, the file is
    moved into the first one; the second move is tried with the old
    path of the file, fails and is reported: the file ends in the first
    folder, not in the second. *)
Theorem file_listed_twice_goes_to_first_folder
        (home : path) (w : World) (root : path) (n a b : str) :
  let f := BASE_FOLDER home ++ [n] in
  canon (fs w) (BASE_FOLDER home) = Some root ->
  kind_of (fs w) root = Some Dir ->
  plain_name n -> plain_name a -> plain_name b -> a <> n -> b <> n ->
  lookup (fs w) (root ++ [n]) = Some File ->
  lookup (fs w) (root ++ [a]) <> Some File ->
  lookup (fs w) (root ++ [a; n]) = None ->
  lookup (fs w) (root ++ [b]) <> Some File ->
  exists w',
    apply_moves home [(a, [f]); (b, [f])] w = (Ret tt, w') /\
    trace w' = trace w ++ [Mkdir (BASE_FOLDER home ++ [a]); Moved f a;
                           Mkdir (BASE_FOLDER home ++ [b]); MoveFailed f b] /\
    lookup (fs w') (root ++ [a; n]) = Some File /\
    lookup (fs w') (root ++ [n]) = None.
Proof.
  intros f Hc Hroot Hn Ha Hb Han Hbn Hfile Hna Hfree Hnb.
  assert (Hn2 : n <> py "..") by apply Hn.
  assert (Ha2 : a <> py "..") by apply Ha.
  assert (Hb2 : b <> py "..") by apply Hb.
  assert (Hne_an : root ++ [a] <> root ++ [n])
    by (intros E; apply app_inv_head in E; congruence).
  assert (Hne_bn : root ++ [b] <> root ++ [n])
    by (intros E; apply app_inv_head in E; congruence).
  assert (Hne_a_an : root ++ [a] <> root ++ [a; n])
    by (intros E; apply app_inv_head in E; discriminate E).
  assert (Hne_b_an : root ++ [b] <> root ++ [a; n])
    by (intros E; apply app_inv_head in E; discriminate E).
  assert (Hne_n_an : root ++ [n] <> root ++ [a; n])
    by (intros E; apply app_inv_head in E; discriminate E).
  (* the first folder is made *)
  set (fs1 := match kind_of (fs w) (root ++ [a]) with
              | Some _ => fs w
              | None => fs_set (fs w) (root ++ [a]) Dir
              end).
  set (w1 := mkWorld fs1 (trace w ++ [Mkdir (BASE_FOLDER home ++ [a])])).
  assert (Hmk1 : mkdir (BASE_FOLDER home ++ [a]) w = (Ret tt, w1)).
  { apply mkdir_ok; [now apply canon_child | now rewrite kind_of_app]. }
  assert (Hl1 : forall p, p <> root ++ [a] -> lookup fs1 p = lookup (fs w) p).
  { intros p Hp. unfold fs1. destruct (kind_of (fs w) (root ++ [a])); [reflexivity|].
    rewrite lookup_fs_set. now rewrite (proj2 (path_eqb_neq _ p)) by congruence. }
  assert (Ha1 : lookup fs1 (root ++ [a]) = Some Dir).
  { unfold fs1. rewrite kind_of_app.
    destruct (lookup (fs w) (root ++ [a])) as [[|]|] eqn:E; [contradiction | assumption |].
    now rewrite lookup_fs_set, path_eqb_refl. }
  assert (Hd1 : forall d, kind_of (fs w) d = Some Dir -> kind_of fs1 d = Some Dir).
  { intros d Hd. unfold fs1. destruct (kind_of (fs w) (root ++ [a])); [assumption|].
    now apply mkdir_keeps_dirs. }
  assert (Hc1 : canon fs1 (BASE_FOLDER home) = Some root) by (eapply canon_mono; eassumption).
  assert (Hroot1 : kind_of fs1 root = Some Dir) by now apply Hd1.
  (* the file is moved into it *)
  set (fs2 := fs_set (fs_remove fs1 (root ++ [n])) ((root ++ [a]) ++ [n]) File).
  set (w2 := mkWorld fs2 (trace w1)).
  assert (Hmv1 : shutil_move f ((BASE_FOLDER home ++ [a]) ++ [n]) w1 = (Ret tt, w2)).
  { apply (@shutil_move_file f _ (root ++ [n]) _ w1); cbn [fs w1].
    - now apply canon_child.
    - rewrite kind_of_app, Hl1 by congruence. assumption.
    - apply canon_child; [now apply canon_child | now rewrite kind_of_app | assumption].
    - rewrite kind_of_app, <- app_assoc. simpl app.
      rewrite Hl1 by congruence. assumption. }
  assert (Hl2 : forall p, lookup fs2 p =
                          if path_eqb (root ++ [a; n]) p then Some File
                          else if path_eqb (root ++ [n]) p then None else lookup fs1 p).
  { intros p. unfold fs2. now rewrite lookup_renamed, <- app_assoc. }
  assert (Hd2 : forall d, kind_of fs1 d = Some Dir -> kind_of fs2 d = Some Dir).
  { intros d Hd. unfold fs2. apply rename_keeps_dirs; [| |assumption].
    - rewrite kind_of_app, Hl1 by congruence. assumption.
    - rewrite kind_of_app, <- app_assoc. simpl app.
      rewrite Hl1 by congruence. congruence. }
  assert (Hc2 : canon fs2 (BASE_FOLDER home) = Some root) by (eapply canon_mono; eassumption).
  assert (Hroot2 : kind_of fs2 root = Some Dir) by now apply Hd2.
  (* the second folder is made *)
  set (fs3 := match kind_of fs2 (root ++ [b]) with
              | Some _ => fs2
              | None => fs_set fs2 (root ++ [b]) Dir
              end).
  set (t3 := (trace w1 ++ [Moved f a]) ++ [Mkdir (BASE_FOLDER home ++ [b])]).
  set (w3 := mkWorld fs3 t3).
  assert (Hb2' : lookup fs2 (root ++ [b]) <> Some File).
  { rewrite Hl2.
    rewrite (proj2 (path_eqb_neq _ _)) by congruence.
    rewrite (proj2 (path_eqb_neq _ _)) by congruence.
    destruct (list_eq_dec str_eq_dec (root ++ [b]) (root ++ [a])) as [E|E].
    - rewrite E, Ha1. discriminate.
    - now rewrite Hl1. }
  assert (Hmk2 : mkdir (BASE_FOLDER home ++ [b]) (mkWorld fs2 (trace w1 ++ [Moved f a]))
                 = (Ret tt, w3)).
  { apply mkdir_ok; cbn [fs]; [now apply canon_child | now rewrite kind_of_app]. }
  assert (Hl3 : forall p, p <> root ++ [b] -> lookup fs3 p = lookup fs2 p).
  { intros p Hp. unfold fs3. destruct (kind_of fs2 (root ++ [b])); [reflexivity|].
    rewrite lookup_fs_set. now rewrite (proj2 (path_eqb_neq _ p)) by congruence. }
  assert (Hd3 : forall d, kind_of fs2 d = Some Dir -> kind_of fs3 d = Some Dir).
  { intros d Hd. unfold fs3. destruct (kind_of fs2 (root ++ [b])); [assumption|].
    now apply mkdir_keeps_dirs. }
  assert (Hc3 : canon fs3 (BASE_FOLDER home) = Some root) by (eapply canon_mono; eassumption).
  assert (Hgone : lookup fs3 (root ++ [n]) = None).
  { rewrite Hl3, Hl2 by congruence.
    rewrite (proj2 (path_eqb_neq _ _)) by congruence. now rewrite path_eqb_refl. }
  (* the file is not where the plan says *)
  assert (Hstat : stat (fs w3) f = None).
  { unfold stat. cbn [fs w3]. unfold f.
    rewrite (@canon_child fs3 _ root n Hc3 (Hd3 _ Hroot2) Hn2).
    now rewrite kind_of_app. }
  destruct (shutil_move_gone f ((BASE_FOLDER home ++ [b]) ++ [n]) w3 Hstat) as [e Hmv2].
  exists (mkWorld fs3 (t3 ++ [MoveFailed f b])).
  split; [|split; [|split]].
  - cbn [apply_moves move_files]. rewrite !(joinpath_plain _ Ha), !(joinpath_plain _ Hb).
    assert (Hname : name f = n) by apply name_app.
    rewrite Hname, !(joinpath_plain _ Hn).
    unfold bind, try_except. rewrite Hmk1. cbv beta iota.
    rewrite Hmv1. cbv beta iota. unfold emit at 1, ret at 1. cbv beta iota.
    cbn [fs trace w2]. rewrite Hmk2. cbv beta iota.
    rewrite Hmv2. cbv beta iota. unfold emit, ret. cbn [fs trace w3]. reflexivity.
  - cbn [trace]. unfold t3, w1. cbn [trace]. now rewrite <- !app_assoc.
  - cbn [fs]. rewrite Hl3, Hl2 by congruence. now rewrite path_eqb_refl.
  - exact Hgone.
Qed.

(** ** The further properties on the sample worlds *)

Ltac plain_name_tac :=
  unfold plain_name; repeat split; try discriminate; vm_compute; intuition discriminate.

Lemma handle_new_file_skips_witness :
  eligible sample_home lonely_world (sample_root ++ [py "report.pdf"]) /\
  (forall folder,
      folder_choice (raw_result ((fun _ : request => folder_answer "Taxes")
                                   (live_request sample_home lonely_world
                                                 (sample_root ++ [py "report.pdf"]))))
      = Some folder ->
      folder = [] \/
      exists_ (fs lonely_world) (joinpath (BASE_FOLDER sample_home) folder) = false) /\
  handle_new_file sample_home (fun _ => folder_answer "Taxes")
                  (sample_root ++ [py "report.pdf"]) lonely_world =
  (Ret tt,
   mkWorld (fs lonely_world)
           (trace lonely_world ++
            [Asked (live_request sample_home lonely_world
                                 (sample_root ++ [py "report.pdf"]))])).
Proof.
  assert (He : eligible sample_home lonely_world (sample_root ++ [py "report.pdf"]))
    by (repeat split; reflexivity).
  assert (Hno : forall folder,
             folder_choice (raw_result ((fun _ : request => folder_answer "Taxes")
                                          (live_request sample_home lonely_world
                                                        (sample_root ++ [py "report.pdf"]))))
             = Some folder ->
             folder = [] \/
             exists_ (fs lonely_world) (joinpath (BASE_FOLDER sample_home) folder) = false).
  { intros folder E. vm_compute in E. injection E as <-. right. vm_compute. reflexivity. }
  split; [exact He|]. split; [exact Hno|].
  exact (@handle_new_file_skips sample_home (fun _ => folder_answer "Taxes")
                                (sample_root ++ [py "report.pdf"]) lonely_world He Hno).
Defined.

Lemma handle_new_file_moves_into_folder_witness :
  let w := mkWorld (fs tidy_world ++ [(sample_root ++ [py "report.pdf"], File)]) [] in
  canon (fs w) (BASE_FOLDER sample_home) = Some sample_root /\
  plain_name (py "report.pdf") /\ plain_name (py "Taxes") /\
  exists w',
    handle_new_file sample_home (fun _ => folder_answer "Taxes")
                    (BASE_FOLDER sample_home ++ [py "report.pdf"]) w = (Ret tt, w') /\
    lookup (fs w') (sample_root ++ [py "Taxes"; py "report.pdf"]) = Some File /\
    lookup (fs w') (sample_root ++ [py "report.pdf"]) = None.
Proof.
  intros w.
  assert (Hc : canon (fs w) (BASE_FOLDER sample_home) = Some sample_root)
    by (vm_compute; reflexivity).
  assert (Hn : plain_name (py "report.pdf")) by plain_name_tac.
  assert (Hk : plain_name (py "Taxes")) by plain_name_tac.
  split; [exact Hc|]. split; [exact Hn|]. split; [exact Hk|].
  destruct (@handle_new_file_moves_into_folder
              sample_home (fun _ => folder_answer "Taxes") w sample_root
              (py "report.pdf") (py "Taxes") Hc Hn Hk
              eq_refl eq_refl eq_refl eq_refl eq_refl)
    as (w' & H1 & _ & H2 & H3 & _).
  exists w'. repeat split; assumption.
Defined.

Lemma live_mode_keeps_the_folder_set_witness :
  let w := mkWorld (fs tidy_world ++ [(sample_root ++ [py "report.pdf"], File)]) [] in
  let w' := mkWorld (fs tidy_world ++ [(sample_root ++ [py "Taxes"; py "report.pdf"], File)])
                    [Asked (LiveRequest [py "Taxes"] (py "report.pdf"));
                     Moved (sample_root ++ [py "report.pdf"]) (py "Taxes")] in
  live_run sample_home w w' /\
  (forall p, lookup (fs w') p = Some Dir <-> lookup (fs w) p = Some Dir) /\
  (forall target, In (Mkdir target) (trace w') -> In (Mkdir target) (trace w)).
Proof.
  intros w w'.
  assert (Hrun : live_run sample_home w w').
  { apply (@live_run_cons sample_home w w' w' (fun _ => folder_answer "Taxes") false
                          (sample_root ++ [py "report.pdf"]) (Ret tt)).
    - vm_compute. reflexivity.
    - apply live_run_nil. }
  split; [exact Hrun|].
  exact (@live_mode_keeps_the_folder_set sample_home w w' Hrun).
Defined.

Lemma file_listed_twice_goes_to_first_folder_witness :
  canon (fs batch_world) (BASE_FOLDER sample_home) = Some sample_root /\
  plain_name (py "song.mp3") /\ plain_name (py "Music") /\ plain_name (py "Audio") /\
  exists w',
    apply_moves sample_home
                [(py "Music", [BASE_FOLDER sample_home ++ [py "song.mp3"]]);
                 (py "Audio", [BASE_FOLDER sample_home ++ [py "song.mp3"]])]
                batch_world = (Ret tt, w') /\
    lookup (fs w') (sample_root ++ [py "Music"; py "song.mp3"]) = Some File /\
    lookup (fs w') (sample_root ++ [py "song.mp3"]) = None.
Proof.
  assert (Hc : canon (fs batch_world) (BASE_FOLDER sample_home) = Some sample_root)
    by (vm_compute; reflexivity).
  assert (Hn : plain_name (py "song.mp3")) by plain_name_tac.
  assert (Ha : plain_name (py "Music")) by plain_name_tac.
  assert (Hb : plain_name (py "Audio")) by plain_name_tac.
  split; [exact Hc|]. split; [exact Hn|]. split; [exact Ha|]. split; [exact Hb|].
  destruct (@file_listed_twice_goes_to_first_folder
              sample_home batch_world sample_root (py "song.mp3") (py "Music") (py "Audio")
              Hc eq_refl Hn Ha Hb)
    as (w' & H1 & _ & H2 & H3);
    try (vm_compute; reflexivity); try (vm_compute; discriminate).
  exists w'. repeat split; assumption.
Defined.

(** ** When [batch_classify] raises *)







(** ** The requests of the initial scan *)

Lemma plan_event_not_request (base : path) (plan : list (str * list path)) (e : event) :
  plan_event base plan e -> is_request e = false.
Proof.
  intros [(k & _ & ->)|(k & m & f & _ & _ & [-> | ->])]; reflexivity.
Qed.

(** X18. The initial scan asks the provider at most once, and only when
    there is something to classify: the one request lists the names of
    the eligible files, which are not none, together with the ceiling
    [MAX_FOLDERS]; everything after it is directory making and moving. *)
Theorem initial_scan_asks_once (home : path) (g : request -> str)
        (w w' : World) (r : result unit) :
  initial_scan home g w = (r, w') ->
  w' = w \/
  exists files t,
    files_to_process home w = (Ret files, w) /\ files <> [] /\
    trace w' = trace w ++ Asked (BatchRequest (map name files) MAX_FOLDERS) :: t /\
    forallb (fun e => negb (is_request e)) t = true.
Proof.
  rewrite initial_scan_run, files_to_process_run.
  destruct (is_dir (fs w) (BASE_FOLDER home));
    [|intros H; injection H as _ <-; now left].
  set (files := filter _ _). set (req := BatchRequest (map name files) MAX_FOLDERS).
  assert (Hmoves : forall plan r0 w0,
             apply_moves home plan (mkWorld (fs w) (trace w ++ [Asked req])) = (r0, w0) ->
             exists t, trace w0 = trace w ++ Asked req :: t /\
                       forallb (fun e => negb (is_request e)) t = true).
  { intros plan r0 w0 Hrun.
    apply apply_moves_events in Hrun as (t & Ht & Hev). simpl in Ht.
    exists t. split; [now rewrite Ht, <- app_assoc|].
    apply forallb_forall. intros e Hin.
    now rewrite (plan_event_not_request (Hev _ Hin)). }
  destruct files as [|f0 files'] eqn:Ef; [intros H; injection H as _ <-; now left|].
  intros Hrun. right. exists (f0 :: files').
  assert (Hex : exists t, trace w' = trace w ++ Asked req :: t /\
                          forallb (fun e => negb (is_request e)) t = true).
  { destruct (raw_result (g req)) as [data|].
    - destruct (materialize data (f0 :: files')) as [plan|e].
      + eapply Hmoves; eassumption.
      + injection Hrun as _ <-. exists []. now split.
    - eapply Hmoves; eassumption. }
  destruct Hex as (t & H1 & H2). exists t. repeat split; try assumption. discriminate.
Qed.

(** ** A plain file where a folder should be *)

(** X19. The existence check of live mode does not tell a folder from a
    plain file; yet when the provider names a plain file of the root
    (the new file itself, say), nothing is moved: the move fails, the
    failure is swallowed, and the file system is as before. *)
Theorem handle_new_file_target_is_a_file
        (home : path) (g : request -> str) (w : World)
        (root : path) (n folder : str) :
  let file_path := BASE_FOLDER home ++ [n] in
  canon (fs w) (BASE_FOLDER home) = Some root ->
  plain_name n -> plain_name folder ->
  is_file (fs w) file_path = true ->
  should_ignore file_path = false ->
  folder_choice (raw_result (g (live_request home w file_path))) = Some folder ->
  lookup (fs w) (root ++ [folder]) = Some File ->
  exists_ (fs w) (joinpath (BASE_FOLDER home) folder) = true /\
  handle_new_file home g file_path w =
  (Ret tt, mkWorld (fs w) (trace w ++ [Asked (live_request home w file_path)])).
Proof.
  intros file_path Hc Hn Hk Hf Hi Hch Hfile.
  assert (Hn2 : n <> py "..") by apply Hn.
  assert (Hk2 : folder <> py "..") by apply Hk.
  destruct (@eligible_child home w n root Hc Hf Hn2) as (Hroot & Hsrc & Hsk).
  set (asked := mkWorld (fs w) (trace w ++ [Asked (live_request home w file_path)])).
  assert (Htarget : canon (fs w) (BASE_FOLDER home ++ [folder]) = Some (root ++ [folder]))
    by now apply canon_child.
  assert (Htk : kind_of (fs w) (root ++ [folder]) = Some File)
    by now rewrite kind_of_app.
  assert (Hex : exists_ (fs w) (joinpath (BASE_FOLDER home) folder) = true)
    by (rewrite (joinpath_plain _ Hk); unfold exists_, stat; now rewrite Htarget, Htk).
  split; [exact Hex|].
  assert (Hdst : canon (fs asked) ((BASE_FOLDER home ++ [folder]) ++ [n]) = None).
  { cbn [fs asked]. rewrite canon_app, Htarget. unfold walk. now rewrite Htk. }
  assert (Hmove : shutil_move file_path ((BASE_FOLDER home ++ [folder]) ++ [n]) asked
                  = (Raise OSError, asked)).
  { unfold shutil_move, bind, get_fs at 1. cbn [fst snd].
    unfold is_dir, stat. rewrite Hdst. cbn [kind_is].
    now apply os_rename_nowhere. }
  unfold handle_new_file, bind at 1, get_fs at 1. cbn [fst snd].
  rewrite Hf. cbn [negb]. unfold file_path at 1.
  rewrite parent_app, path_eqb_refl. cbn [negb]. fold file_path. rewrite Hi.
  unfold bind at 1.
  rewrite classify_single_file_run
    by (unfold is_dir, stat; now rewrite Hc, Hroot).
  rewrite Hch. fold asked.
  assert (Hne : folder <> []) by apply Hk.
  destruct folder as [|c folder']; [contradiction|].
  unfold bind at 1, get_fs at 1. cbn [fst snd].
  change (fs asked) with (fs w). rewrite Hex. cbn [negb]. rewrite (joinpath_plain _ Hk).
  unfold file_path at 2. rewrite name_app, (joinpath_plain _ Hn).
  unfold try_except, bind. rewrite Hmove. reflexivity.
Qed.

(** ** What is left of the fence markers *)

Lemma replace_fence_head (s : str) :
  startswith s (py "``") = false ->
  startswith (replace_from (py "```") [] 0 s) (py "``") = false.
Proof.
  destruct s as [|x t]; [reflexivity|].
  destruct (N.eqb x 96) eqn:Ex.
  - apply N.eqb_eq in Ex. subst x. destruct t as [|y u]; [reflexivity|].
    destruct (N.eqb y 96) eqn:Ey.
    + intros H. cbn in H. rewrite Ey in H. discriminate H.
    + intros _.
      rewrite replace_from_nomatch by (cbn; now rewrite Ey).
      rewrite replace_from_nomatch
        by (cbn; rewrite Ey; reflexivity).
      cbn. now rewrite Ey.
  - intros _. rewrite replace_from_nomatch by (cbn; now rewrite Ex).
    cbn. now rewrite Ex.
Qed.

Lemma replace_fence_clean (n : nat) (s : str) :
  length s <= n ->
  str_contains (replace_from (py "```") [] 0 s) (py "```") = false.
Proof.
  revert s. induction n as [|n IH]; intros s Hn.
  - destruct s; [reflexivity | simpl in Hn; lia].
  - destruct s as [|c s']; [reflexivity|].
    destruct (startswith (c :: s') (py "```")) eqn:E.
    + rewrite replace_from_match by assumption. cbn [app]. apply IH.
      pose proof (length_skipn (length (py "```") - 1) s'). simpl in *. lia.
    + rewrite replace_from_nomatch by assumption.
      cbn [str_contains]. rewrite IH by (simpl in Hn; lia). rewrite orb_false_r.
      cbn in E |- *. destruct (N.eqb c 96); [|reflexivity]. cbn in E |- *.
      apply (replace_fence_head s'). exact E.
Qed.

(** X20. What lines 100-101 and 190-191 hand to the decoder never starts
    with a fence marker; and when the stripped answer did start with
    one, no triple backtick is left anywhere in it. *)
Theorem unfence_leaves_no_marker (raw : str) :
  startswith (unfence raw) (py "```") = false /\
  (startswith raw (py "```") = true ->
   str_contains (unfence raw) (py "```") = false).
Proof.
  assert (H : startswith raw (py "```") = true ->
              str_contains (unfence raw) (py "```") = false).
  { intros E. unfold unfence. rewrite E. apply str_contains_strip.
    apply (replace_fence_clean (n := length (replace (py "```json") [] raw))). lia. }
  split; [|exact H].
  destruct (startswith raw (py "```")) eqn:E.
  - specialize (H eq_refl). destruct (unfence raw) as [|c u]; [reflexivity|].
    now apply str_contains_cons in H as [H _].
  - unfold unfence. now rewrite E.
Qed.

Lemma initial_scan_asks_once_witness :
  exists w',
    initial_scan sample_home (fun _ => batch_answer) batch_world = (Ret tt, w') /\
    (w' = batch_world \/
     exists files t,
       files_to_process sample_home batch_world = (Ret files, batch_world) /\
       files <> [] /\
       trace w' = trace batch_world
                  ++ Asked (BatchRequest (map name files) MAX_FOLDERS) :: t /\
       forallb (fun e => negb (is_request e)) t = true).
Proof.
  eexists. split; [vm_compute; reflexivity|].
  apply (@initial_scan_asks_once sample_home (fun _ => batch_answer) batch_world _ (Ret tt)).
  vm_compute. reflexivity.
Defined.

Lemma handle_new_file_target_is_a_file_witness :
  canon (fs lonely_world) (BASE_FOLDER sample_home) = Some sample_root /\
  plain_name (py "report.pdf") /\
  lookup (fs lonely_world) (sample_root ++ [py "report.pdf"]) = Some File /\
  exists_ (fs lonely_world) (joinpath (BASE_FOLDER sample_home) (py "report.pdf")) = true /\
  handle_new_file sample_home (fun _ => folder_answer "report.pdf")
                  (BASE_FOLDER sample_home ++ [py "report.pdf"]) lonely_world =
  (Ret tt,
   mkWorld (fs lonely_world)
           (trace lonely_world ++
            [Asked (live_request sample_home lonely_world
                                 (BASE_FOLDER sample_home ++ [py "report.pdf"]))])).
Proof.
  assert (Hc : canon (fs lonely_world) (BASE_FOLDER sample_home) = Some sample_root)
    by (vm_compute; reflexivity).
  assert (Hn : plain_name (py "report.pdf")) by plain_name_tac.
  split; [exact Hc|]. split; [exact Hn|]. split; [reflexivity|].
  exact (@handle_new_file_target_is_a_file
           sample_home (fun _ => folder_answer "report.pdf") lonely_world sample_root
           (py "report.pdf") (py "report.pdf") Hc Hn Hn
           eq_refl eq_refl eq_refl eq_refl).
Defined.
